(** * Finance and flight-search tools: a shallow embedding

    The development follows the three Python modules of the server:

    - [utils/google_finance_utils.py]: the query normaliser and the two
      response-envelope constructors;
    - [utils/google_flights_utils.py]: the flight result parser;
    - [mcp_tools.py]: the external call gateway [search_google] and the
      eight tool handlers.

    Python values are modelled as follows.

    - A [str] is a Stdlib [string]; a character stands for the code point
      with the same number (0..255, the Basic Latin and Latin-1 blocks),
      and the character classes used by [str.isupper], [str.isdigit],
      [str.strip] and [str.lower] are those of the Unicode database for
      these code points.  [str.upper] leaves the two blocks for two
      characters; the value of such text is left to the world.
    - A [dict] is an association list in insertion order, as CPython keeps
      it; [d[k] = v] overwrites in place or appends.
    - JSON payloads are the inductive type [value].
    - A handler is a computation in a small monad with exceptions and a
      log of the requests sent to the external API, so that "raises",
      "returns" and "no request was sent" are all statements about the
      result of running it.  Exceptions are of two kinds, instances of
      [Exception] and the others, which [except Exception] lets through.
    - What lies outside the repository (the process environment, the
      HTTP client, the clock, the interpreter's rendering of non-string
      values, the validation done by the record class) is gathered in a
      record [World] and passed explicitly. *)

From Stdlib Require Import Bool List ZArith NArith QArith Lia.
From Stdlib Require Import Ascii String.
Import ListNotations.

Set Warnings "-register-all".

Close Scope Q_scope.
Open Scope string_scope.
Open Scope bool_scope.

(** ** Python strings *)

Module PyStr.

Definition code (c : ascii) : N := N_of_ascii c.

Definition between (lo hi : N) (c : ascii) : bool :=
  ((lo <=? code c) && (code c <=? hi))%N.

Definition code_is (n : N) (c : ascii) : bool := (code c =? n)%N.

(** Unicode property Uppercase: A-Z, U+00C0..U+00D6, U+00D8..U+00DE. *)
Definition char_isupper (c : ascii) : bool :=
  between 65 90 c || between 192 214 c || between 216 222 c.

(** Unicode property Lowercase: a-z, U+00AA, U+00B5, U+00BA,
    U+00DF..U+00F6, U+00F8..U+00FF. *)
Definition char_islower (c : ascii) : bool :=
  between 97 122 c || code_is 170 c || code_is 181 c || code_is 186 c
  || between 223 246 c || between 248 255 c.

(** Characters with a digit value: 0-9 and the superscripts
    U+00B2, U+00B3, U+00B9. *)
Definition char_isdigit (c : ascii) : bool :=
  between 48 57 c || code_is 178 c || code_is 179 c || code_is 185 c.

(** White space: U+0009..U+000D, U+001C..U+0020, U+0085, U+00A0. *)
Definition char_isspace (c : ascii) : bool :=
  between 9 13 c || between 28 32 c || code_is 133 c || code_is 160 c.

(** [str.lower] on one character; every capital of the two blocks has
    its small letter 32 places further. *)
Definition char_lower (c : ascii) : ascii :=
  if char_isupper c then ascii_of_N (code c + 32) else c.

(** [str.upper] on one character.  The sharp s becomes two letters.  The
    capitals of U+00B5 and U+00FF are U+039C and U+0178, beyond the two
    blocks: no [string] holds them, and the answer is [None]. *)
Definition char_upper (c : ascii) : option string :=
  if between 97 122 c || between 224 246 c || between 248 254 c
  then Some (String (ascii_of_N (code c - 32)) "")
  else if code_is 223 c then Some "SS"
  else if code_is 181 c || code_is 255 c then None
  else Some (String c "").

Fixpoint str_map (f : ascii -> ascii) (s : string) : string :=
  match s with
  | "" => ""
  | String c s' => String (f c) (str_map f s')
  end.

Fixpoint str_any (p : ascii -> bool) (s : string) : bool :=
  match s with
  | "" => false
  | String c s' => p c || str_any p s'
  end.

Fixpoint str_all (p : ascii -> bool) (s : string) : bool :=
  match s with
  | "" => true
  | String c s' => p c && str_all p s'
  end.

Definition lower (s : string) : string := str_map char_lower s.

(** [s.upper()], when it is text of the two blocks. *)
Fixpoint upper (s : string) : option string :=
  match s with
  | "" => Some ""
  | String c s' =>
      match char_upper c, upper s' with
      | Some u, Some r => Some (u ++ r)
      | _, _ => None
      end
  end.

(** The loop of [str.isupper]: a small letter anywhere gives [False];
    otherwise the answer is whether a capital was seen. *)
Fixpoint isupper_from (cased : bool) (s : string) : bool :=
  match s with
  | "" => cased
  | String c s' =>
      if char_islower c then false
      else isupper_from (cased || char_isupper c) s'
  end.

Definition isupper (s : string) : bool := isupper_from false s.

(** [sep in s] for a one-character [sep]. *)
Definition contains (sep : ascii) (s : string) : bool :=
  str_any (Ascii.eqb sep) s.

(** [s.split(sep)] for a one-character [sep]: one more part than there
    are separators. *)
Fixpoint split (sep : ascii) (s : string) : list string :=
  match s with
  | "" => [""]
  | String c s' =>
      if Ascii.eqb c sep then "" :: split sep s'
      else match split sep s' with
           | p :: ps => String c p :: ps
           | [] => [String c ""]
           end
  end.

(** [s.replace(a, b)] for one-character [a] and [b]. *)
Definition replace (a b : ascii) (s : string) : string :=
  str_map (fun c => if Ascii.eqb c a then b else c) s.

Fixpoint lstrip (s : string) : string :=
  match s with
  | "" => ""
  | String c s' => if char_isspace c then lstrip s' else s
  end.

Fixpoint rstrip (s : string) : string :=
  match s with
  | "" => ""
  | String c s' =>
      match rstrip s' with
      | "" => if char_isspace c then "" else String c ""
      | r => String c r
      end
  end.

Definition strip (s : string) : string := rstrip (lstrip s).

(** Truth value of a string: empty is false. *)
Definition nonempty (s : string) : bool :=
  match s with "" => false | _ => true end.

(** [sep.join(l)]. *)
Fixpoint join (sep : string) (l : list string) : string :=
  match l with
  | [] => ""
  | [x] => x
  | x :: rest => x ++ sep ++ join sep rest
  end.

(** [s in l] for a list of strings. *)
Definition mem (s : string) (l : list string) : bool :=
  existsb (String.eqb s) l.

(** The first [n] characters of [s]. *)
Fixpoint take (n : nat) (s : string) : string :=
  match n, s with
  | S n', String c s' => String c (take n' s')
  | _, _ => ""
  end.

End PyStr.

(** ** Python values, dictionaries and effects *)

Module Py.

Inductive value : Type :=
| VNone
| VBool (b : bool)
| VInt (z : Z)
| VFloat (q : Q)
| VStr (s : string)
| VList (l : list value)
| VDict (d : list (string * value)).

Definition dict : Type := list (string * value).

(** Truth value of an object, as [if x:] and [not x] take it. *)
Definition truthy (v : value) : bool :=
  match v with
  | VNone => false
  | VBool b => b
  | VInt z => negb (z =? 0)%Z
  | VFloat q => negb (Qeq_bool q 0)
  | VStr s => PyStr.nonempty s
  | VList l => match l with [] => false | _ => true end
  | VDict d => match d with [] => false | _ => true end
  end.

Definition truthy_str (o : option string) : bool :=
  match o with Some s => PyStr.nonempty s | None => false end.

Definition truthy_int (o : option Z) : bool :=
  match o with Some z => negb (z =? 0)%Z | None => false end.

Definition type_name (v : value) : string :=
  match v with
  | VNone => "NoneType"
  | VBool _ => "bool"
  | VInt _ => "int"
  | VFloat _ => "float"
  | VStr _ => "str"
  | VList _ => "list"
  | VDict _ => "dict"
  end.

(** *** Dictionaries with string keys, in insertion order *)

Fixpoint assoc {A : Type} (k : string) (d : list (string * A)) : option A :=
  match d with
  | [] => None
  | (k', v) :: d' => if String.eqb k' k then Some v else assoc k d'
  end.

(** [k in d] *)
Definition has_key {A : Type} (k : string) (d : list (string * A)) : bool :=
  match assoc k d with Some _ => true | None => false end.

(** [d.get(k, default)] *)
Definition get (d : dict) (k : string) (default : value) : value :=
  match assoc k d with Some v => v | None => default end.

(** [d[k] = v] *)
Fixpoint set (k : string) (v : value) (d : dict) : dict :=
  match d with
  | [] => [(k, v)]
  | (k', v') :: d' =>
      if String.eqb k' k then (k', v) :: d' else (k', v') :: set k v d'
  end.

(** [list(d.keys())] *)
Definition keys {A : Type} (d : list (string * A)) : list string :=
  map fst d.

(** *** Exceptions and results

    An [exn] is an instance of [Exception], the class the handlers catch;
    [str_exn] is [str(e)].  The texts of the interpreter's own errors
    follow CPython.  A [base_exn] is an exception outside [Exception]
    ([KeyboardInterrupt], [SystemExit] and the like), which
    [except Exception] does not catch. *)

Inductive exn : Type := Exception (cls msg : string).

Definition str_exn (e : exn) : string :=
  match e with Exception _ msg => msg end.

Inductive base_exn : Type := BaseException (cls msg : string).

(** What a computation that raises has raised. *)
Inductive signal : Type :=
| Within (e : exn)
| Outside (b : base_exn).

Inductive result (E A : Type) : Type :=
| Ret (a : A)
| Raise (e : E).
Arguments Ret {E A} a.
Arguments Raise {E A} e.

(** The results of the code that raises instances of [Exception] only:
    the code of the repository itself, the client and the record class. *)
Abbreviation res := (result exn).

Definition res_bind {A B : Type} (r : res A) (k : A -> res B) : res B :=
  match r with
  | Ret a => k a
  | Raise e => Raise e
  end.

Definition AttributeError {A : Type} (v : value) (attr : string) : res A :=
  Raise (Exception "AttributeError"
           ("'" ++ type_name v ++ "' object has no attribute '" ++ attr ++ "'")).

Definition not_subscriptable {A : Type} (v : value) : res A :=
  Raise (Exception "TypeError"
           ("'" ++ type_name v ++ "' object is not subscriptable")).

(** [d[k]] on a dictionary *)
Definition getitem (d : dict) (k : string) : res value :=
  match assoc k d with
  | Some v => Ret v
  | None => Raise (Exception "KeyError" ("'" ++ k ++ "'"))
  end.

(** [x.get(k, default)] on any object: only a dictionary has [get]. *)
Definition py_get (x : value) (k : string) (default : value) : res value :=
  match x with
  | VDict d => Ret (get d k default)
  | _ => AttributeError x "get"
  end.

(** [x[0]] *)
Definition first_item (x : value) : res value :=
  match x with
  | VList (v :: _) => Ret v
  | VList [] => Raise (Exception "IndexError" "list index out of range")
  | VStr (String c _) => Ret (VStr (String c ""))
  | VStr "" => Raise (Exception "IndexError" "string index out of range")
  | VDict _ => Raise (Exception "KeyError" "0")
  | _ => not_subscriptable x
  end.

(** The bound of [x[:n]]: a negative [n] counts from the end. *)
Definition slice_bound (len : nat) (n : Z) : nat :=
  if (n <? 0)%Z then Z.to_nat (Z.of_nat len + n) else Z.to_nat n.

(** [x[:n]] *)
Definition slice_to (x : value) (n : Z) : res value :=
  match x with
  | VList l => Ret (VList (firstn (slice_bound (List.length l) n) l))
  | VStr s => Ret (VStr (PyStr.take (slice_bound (String.length s) n) s))
  | VDict _ => Raise (Exception "TypeError" "unhashable type: 'slice'")
  | _ => not_subscriptable x
  end.

Fixpoint chars (s : string) : list value :=
  match s with
  | "" => []
  | String c s' => VStr (String c "") :: chars s'
  end.

(** The items a [for] loop over [x] visits. *)
Definition iterate (x : value) : res (list value) :=
  match x with
  | VList l => Ret l
  | VStr s => Ret (chars s)
  | VDict d => Ret (map (fun kv => VStr (fst kv)) d)
  | _ => Raise (Exception "TypeError"
                  ("'" ++ type_name x ++ "' object is not iterable"))
  end.

(** [s.split()]: the words of [s] between runs of white space. *)
Fixpoint split_ws (s : string) : list string :=
  match s with
  | "" => []
  | String c s' =>
      if PyStr.char_isspace c then split_ws s'
      else match s' with
           | "" => [String c ""]
           | String c' _ =>
               if PyStr.char_isspace c' then String c "" :: split_ws s'
               else match split_ws s' with
                    | w :: ws => String c w :: ws
                    | [] => [String c ""]
                    end
           end
  end.

(** [repr] of a list of strings that need no escaping. *)
Definition repr_str_list (l : list string) : string :=
  "[" ++ PyStr.join ", " (map (fun s => "'" ++ s ++ "'") l) ++ "]".

(** *** The world outside the repository *)

Record World : Type := {
  (** [os.getenv] *)
  getenv : string -> option string;
  (** [GoogleSearch(params).get_dict()]: the decoded body, or the
      exception the client raises *)
  get_dict : dict -> res dict;
  (** [datetime.now().isoformat()] at the time of the call *)
  now_isoformat : string;
  (** [str(v)] for a value that is not a string *)
  repr : value -> string;
  (** [FlightDetails(...).dict()], built from the keyword arguments: the validated record, or the
      validation error of the record class *)
  FlightDetails : dict -> res dict;
  (** the value that stands for [s.upper()] when this text has a character
      beyond U+00FF, which no [string] holds *)
  wide_upper : string -> value
}.

(** [s.upper()] as a value. *)
Definition str_upper (w : World) (s : string) : value :=
  match PyStr.upper s with
  | Some u => VStr u
  | None => wide_upper w s
  end.

(** [str(v)], as an f-string inserts it. *)
Definition py_str (w : World) (v : value) : string :=
  match v with
  | VStr s => s
  | _ => repr w v
  end.

(** *** Computations: exceptions and the log of requests sent

    A computation runs under an account of what is raised from outside
    [Exception] while a request is under way (an interrupt from the
    keyboard, an exit of the interpreter): [interrupts] tells it for each
    request.  It returns, or raises a [signal], and leaves the log of the
    requests sent. *)

Definition interrupts : Type := dict -> option base_exn.

Definition M (A : Type) : Type :=
  interrupts -> list dict -> result signal A * list dict.

Definition ret {A : Type} (a : A) : M A := fun _ log => (Ret a, log).

Definition bind {A B : Type} (m : M A) (k : A -> M B) : M B :=
  fun i log =>
    match m i log with
    | (Ret a, log') => k a i log'
    | (Raise s, log') => (Raise s, log')
    end.

(** The code that raises instances of [Exception] only, as a computation. *)
Definition lift {A : Type} (r : res A) : M A :=
  fun _ log =>
    (match r with Ret a => Ret a | Raise e => Raise (Within e) end, log).

(** [try: m except Exception as e: h e]: an instance of [Exception] is
    handled, anything else that is raised goes through. *)
Definition try_except {A : Type} (m : M A) (h : exn -> M A) : M A :=
  fun i log =>
    match m i log with
    | (Ret a, log') => (Ret a, log')
    | (Raise (Within e), log') => h e i log'
    | (Raise (Outside b), log') => (Raise (Outside b), log')
    end.

(** One request to the external API; it is logged whether or not
    something is raised while it is under way. *)
Definition request (w : World) (params : dict) : M dict :=
  fun i log =>
    (match i params with
     | Some b => Raise (Outside b)
     | None =>
         match get_dict w params with
         | Ret body => Ret body
         | Raise e => Raise (Within e)
         end
     end,
     (log ++ [params])%list).

(** No interrupt, whatever the request. *)
Definition never : interrupts := fun _ => None.

Definition run_under {A : Type} (i : interrupts) (m : M A)
  : result signal A * list dict := m i [].

(** What a call returned and the requests it sent, under [i]. *)
Definition outcome_under {A : Type} (i : interrupts) (m : M A)
  : result signal A := fst (run_under i m).
Definition requests_under {A : Type} (i : interrupts) (m : M A)
  : list dict := snd (run_under i m).

(** The same for a run during which nothing is raised from outside
    [Exception]. *)
Definition run {A : Type} (m : M A) : result signal A * list dict :=
  run_under never m.

Definition outcome {A : Type} (m : M A) : result signal A := fst (run m).
Definition requests {A : Type} (m : M A) : list dict := snd (run m).

End Py.

Import Py.

Notation "'let?' x ':=' r 'in' k" := (res_bind r (fun x => k))
  (at level 10, x name, r at level 100, k at level 200).

Notation "x <- m ;; k" := (bind m (fun x => k))
  (at level 61, m at next level, right associativity).

(** ** google_finance_utils.py *)

Module Finance.

Definition normalize_query (query : string) : string :=
  if PyStr.contains ":" query then
    match PyStr.split ":" query with
    | [p0; p1] =>
        if PyStr.isupper p0 && negb (PyStr.str_any PyStr.char_isdigit p0)
        then p1 ++ ":" ++ p0
        else query
    | _ => query
    end
  else query.

Definition create_error_response (w : World) (query error tool_type : string)
  : dict :=
  [ ("tool", VStr tool_type);
    ("query", VStr query);
    ("timestamp", VStr (now_isoformat w));
    ("error", VStr error);
    ("success", VBool false) ].

Definition create_success_response (w : World) (query : string) (data : dict)
    (tool_type : string) : dict :=
  [ ("tool", VStr tool_type);
    ("query", VStr query);
    ("timestamp", VStr (now_isoformat w));
    ("success", VBool true);
    ("api_response", VDict data) ].

(** The default of the [tool_type] argument of both constructors. *)
Definition default_tool_type : string := "stock_quote".

End Finance.

(** ** google_flights_utils.py *)

Module Flights.

(** [departure_time.split()[0] if departure_time
     else flight_info.get("departure_date")] *)
Definition departure_date_of (departure_time flight_info : value) : res value :=
  if truthy departure_time then
    match departure_time with
    | VStr s =>
        match split_ws s with
        | first :: _ => Ret (VStr first)
        | [] => Raise (Exception "IndexError" "list index out of range")
        end
    | _ => AttributeError departure_time "split"
    end
  else py_get flight_info "departure_date" VNone.

(** The body of the loop for a group that is not skipped: the flattened
    record built from the first leg and the fields of the group. *)
Definition flatten_group (w : World) (flight_info flight_legs : value)
  : res dict :=
  let? first_leg := first_item flight_legs in
  let? departure_airport := py_get first_leg "departure_airport" (VDict []) in
  let? arrival_airport := py_get first_leg "arrival_airport" (VDict []) in
  let? departure_time := py_get departure_airport "time" (VStr "") in
  let? arrival_time := py_get arrival_airport "time" (VStr "") in
  let? departure_airport_id := py_get departure_airport "id" VNone in
  let? departure_airport_name := py_get departure_airport "name" VNone in
  let? arrival_airport_id := py_get arrival_airport "id" VNone in
  let? arrival_airport_name := py_get arrival_airport "name" VNone in
  let? airline := py_get first_leg "airline" VNone in
  let? flight_number := py_get first_leg "flight_number" VNone in
  let? airplane := py_get first_leg "airplane" VNone in
  let? travel_class := py_get first_leg "travel_class" VNone in
  let? duration := py_get first_leg "duration" VNone in
  let? legroom := py_get first_leg "legroom" VNone in
  let? overnight := py_get first_leg "overnight" VNone in
  let? ticket_also_sold_by := py_get first_leg "ticket_also_sold_by" VNone in
  let? extensions := py_get first_leg "extensions" VNone in
  let? price := py_get flight_info "price" VNone in
  let? departure_date := departure_date_of departure_time flight_info in
  let? return_date := py_get flight_info "return_date" VNone in
  let? passenger := py_get flight_info "passenger" (VInt 1) in
  let? total_duration := py_get flight_info "total_duration" VNone in
  let? carbon_emissions := py_get flight_info "carbon_emissions" VNone in
  let? legs := py_get flight_info "flights" VNone in
  FlightDetails w
      [ ("departure_airport_id", departure_airport_id);
        ("departure_airport_name", departure_airport_name);
        ("departure_time", departure_time);
        ("arrival_airport_id", arrival_airport_id);
        ("arrival_airport_name", arrival_airport_name);
        ("arrival_time", arrival_time);
        ("airline", airline);
        ("flight_number", flight_number);
        ("airplane", airplane);
        ("travel_class", travel_class);
        ("duration", duration);
        ("legroom", legroom);
        ("overnight", overnight);
        ("ticket_also_sold_by", ticket_also_sold_by);
        ("extensions", extensions);
        ("price", price);
        ("departure_date", departure_date);
        ("return_date", return_date);
        ("passenger", passenger);
        ("total_duration", total_duration);
        ("carbon_emissions", carbon_emissions);
        ("legs", legs) ].

(** The body of the loop for one itinerary group: [None] when the group
    is skipped, the flattened record otherwise. *)
Definition parse_group (w : World) (flight_info : value) : res (option dict) :=
  let? flight_legs := py_get flight_info "flights" (VList []) in
  if negb (truthy flight_legs) then Ret None
  else
    let? parsed_flight := flatten_group w flight_info flight_legs in
    Ret (Some parsed_flight).

(** The loop, with the list [parsed_flights] built so far. *)
Fixpoint parse_loop (w : World) (items : list value) (parsed_flights : list dict)
  : res (list dict) :=
  match items with
  | [] => Ret parsed_flights
  | flight_info :: rest =>
      let? o := parse_group w flight_info in
      match o with
      | None => parse_loop w rest parsed_flights
      | Some parsed_flight =>
          parse_loop w rest (parsed_flights ++ [parsed_flight])%list
      end
  end.

Definition parse_flights (w : World) (flights_data : value) : res (list dict) :=
  let? items := iterate flights_data in
  parse_loop w items [].

End Flights.

(** ** mcp_tools.py *)

Module Tools.

Import Finance Flights.

(** [SERP_API_KEY = os.getenv("SERP_API_KEY")] *)
Definition SERP_API_KEY (w : World) : option string := getenv w "SERP_API_KEY".

(** *** The external call gateway *)

Definition search_google (w : World) (params : dict) : M dict :=
  try_except
    (results <- request w params ;;
     if has_key "error" results then
       e <- lift (getitem results "error") ;;
       ret [("error", e)]
     else ret results)
    (fun e => ret [("error", VStr (str_exn e))]).

(** *** Flight search *)

Definition TRAVEL_CLASS_MAP : list (string * Z) :=
  [ ("economy", 1); ("eco", 1); ("coach", 1);
    ("premium", 2); ("premium economy", 2); ("premium_economy", 2);
    ("business", 3); ("business class", 3); ("business_class", 3);
    ("first", 4); ("first class", 4); ("first_class", 4); ("luxury", 4) ]%Z.

(** [travel_class.lower().replace("-", "_").strip() if travel_class
     else "economy"] *)
Definition travel_class_key (travel_class : option string) : string :=
  match travel_class with
  | Some tc =>
      if PyStr.nonempty tc
      then PyStr.strip (PyStr.replace "-" "_" (PyStr.lower tc))
      else "economy"
  | None => "economy"
  end.

(** [int(passengers) if passengers else 1] *)
Definition passenger_count (passengers : option Z) : Z :=
  match passengers with
  | Some p => if (p =? 0)%Z then 1%Z else p
  | None => 1%Z
  end.

Definition invalid_travel_class (travel_class : option string) : dict :=
  [ ("error",
     VStr ("Invalid travel_class '"
           ++ match travel_class with Some tc => tc | None => "None" end
           ++ "'. Must be one of "
           ++ repr_str_list (keys TRAVEL_CLASS_MAP))) ].

(** The parameter map as it stands when the credential is looked up. *)
Definition flight_params (w : World)
    (departure_airport arrival_airport departure_date : string)
    (return_date airline_name : option string) (travel_class_int : Z)
    (max_price : option Z) (passengers : Z) : dict :=
  let params :=
    [ ("engine", VStr "google_flights");
      ("departure_id", str_upper w departure_airport);
      ("arrival_id", str_upper w arrival_airport);
      ("outbound_date", VStr departure_date);
      ("adults", VInt passengers);
      ("travel_class", VInt travel_class_int);
      ("hl", VStr "en") ] in
  let params :=
    match return_date with
    | Some rd =>
        if PyStr.nonempty rd
        then set "type" (VStr "1") (set "return_date" (VStr rd) params)
        else set "type" (VStr "2") params
    | None => set "type" (VStr "2") params
    end in
  let params :=
    match max_price with
    | Some mp => if negb (mp =? 0)%Z then set "max_price" (VInt mp) params else params
    | None => params
    end in
  match airline_name with
  | Some a => if PyStr.nonempty a then set "airline_name" (VStr a) params else params
  | None => params
  end.

Definition google_flights (w : World)
    (departure_airport arrival_airport departure_date : string)
    (return_date airline_name travel_class : option string)
    (max_price : option Z) (max_results : Z) (passengers : option Z) : M dict :=
  let passengers := passenger_count passengers in
  let key := travel_class_key travel_class in
  match assoc key TRAVEL_CLASS_MAP with
  | None => ret (invalid_travel_class travel_class)
  | Some travel_class_int =>
      let params :=
        flight_params w departure_airport arrival_airport departure_date
          return_date airline_name travel_class_int max_price passengers in
      let api_key := SERP_API_KEY w in
      if negb (truthy_str api_key) then
        ret [("error", VStr "SERP_API_KEY environment variable is required")]
      else
        let params :=
          set "api_key" (VStr (match api_key with Some k => k | None => "" end))
            params in
        try_except
          (results <- search_google w params ;;
           if has_key "error" results then
             e <- lift (getitem results "error") ;;
             ret [("error", VStr ("SerpAPI error: " ++ py_str w e))]
           else
             let best_flights := get results "best_flights" (VList []) in
             if negb (truthy best_flights) then
               ret [("message", VStr "No flights found.")]
             else
               sliced <- lift (slice_to best_flights max_results) ;;
               parsed_flights <- lift (parse_flights w sliced) ;;
               ret [("best_flights", VList (map VDict parsed_flights))])
          (fun e =>
             ret [("error", VStr ("Error searching flights: " ++ str_exn e))])
  end.

(** The defaults of the optional arguments of [google_flights]. *)
Definition default_travel_class : option string := Some "economy".
Definition default_max_results : Z := 5.
Definition default_passengers : option Z := Some 1%Z.

(** *** Finance tools *)

(** [if gl: params["gl"] = gl] and the like *)
Definition set_if (k : string) (o : option string) (params : dict) : dict :=
  match o with
  | Some s => if PyStr.nonempty s then set k (VStr s) params else params
  | None => params
  end.

Definition key_of (api_key : option string) : value :=
  VStr (match api_key with Some k => k | None => "" end).

Definition get_stock_quote (w : World) (q : string) (gl hl : option string)
  : M dict :=
  if negb (PyStr.nonempty (PyStr.strip q)) then
    ret (create_error_response w q "Query cannot be empty" default_tool_type)
  else
  let api_key := SERP_API_KEY w in
  if negb (truthy_str api_key) then
    ret (create_error_response w q "SERP_API_KEY not configured" default_tool_type)
  else
  let params :=
    [ ("engine", VStr "google_finance");
      ("q", VStr (normalize_query q));
      ("api_key", key_of api_key) ] in
  let params := set_if "gl" gl params in
  let params := set_if "hl" hl params in
  data <- search_google w params ;;
  if has_key "error" data then
    e <- lift (getitem data "error") ;;
    ret (create_error_response w q ("API Error: " ++ py_str w e) "stock_quote")
  else ret (create_success_response w q data "stock_quote").

Definition valid_trends : list string :=
  [ "indexes"; "most-active"; "gainers"; "losers"; "climate-leaders";
    "cryptocurrencies"; "currencies" ].

Definition get_market_data (w : World) (trend : string) (gl hl : option string)
  : M dict :=
  if negb (PyStr.mem trend valid_trends) then
    ret (create_error_response w trend
           ("Invalid trend '" ++ trend ++ "'. Valid trends: "
            ++ PyStr.join ", " valid_trends) "market_data")
  else
  let api_key := SERP_API_KEY w in
  if negb (truthy_str api_key) then
    ret (create_error_response w trend "SERP_API_KEY not configured" "market_data")
  else
  let params :=
    [ ("engine", VStr "google_finance_markets");
      ("trend", VStr trend);
      ("api_key", key_of api_key) ] in
  let params := set_if "gl" gl params in
  let params := set_if "hl" hl params in
  data <- search_google w params ;;
  if has_key "error" data then
    e <- lift (getitem data "error") ;;
    ret (create_error_response w trend ("API Error: " ++ py_str w e) "market_data")
  else ret (create_success_response w trend data "market_data").

Definition valid_periods : list string :=
  [ "1d"; "5d"; "1m"; "6m"; "ytd"; "1y"; "5y"; "max" ].

Definition get_graph_data (w : World) (q period : string) (gl hl : option string)
  : M dict :=
  if negb (PyStr.mem period valid_periods) then
    ret (create_error_response w q
           ("Invalid period '" ++ period ++ "'. Valid periods: "
            ++ PyStr.join ", " valid_periods) "graph_data")
  else
  let api_key := SERP_API_KEY w in
  if negb (truthy_str api_key) then
    ret (create_error_response w q "SERP_API_KEY not configured" "graph_data")
  else
  let params :=
    [ ("engine", VStr "google_finance");
      ("q", VStr q);
      ("period", VStr period);
      ("api_key", key_of api_key) ] in
  let params := set_if "gl" gl params in
  let params := set_if "hl" hl params in
  data <- search_google w params ;;
  if has_key "error" data then
    e <- lift (getitem data "error") ;;
    ret (create_error_response w q ("API Error: " ++ py_str w e) "graph_data")
  else ret (create_success_response w q data "graph_data").

Definition compare_stocks (w : World) (q period : string) (gl hl : option string)
  : M dict :=
  if negb (PyStr.mem period valid_periods) then
    ret (create_error_response w q
           ("Invalid period '" ++ period ++ "'. Valid periods: "
            ++ PyStr.join ", " valid_periods) "comparison")
  else
  let api_key := SERP_API_KEY w in
  if negb (truthy_str api_key) then
    ret (create_error_response w q "SERP_API_KEY not configured" "comparison")
  else
  let params :=
    [ ("engine", VStr "google_finance");
      ("q", VStr q);
      ("period", VStr period);
      ("api_key", key_of api_key) ] in
  let params := set_if "gl" gl params in
  let params := set_if "hl" hl params in
  data <- search_google w params ;;
  if has_key "error" data then
    e <- lift (getitem data "error") ;;
    ret (create_error_response w q ("API Error: " ++ py_str w e) "comparison")
  else ret (create_success_response w q data "comparison").

Definition valid_windows : list string :=
  [ "week"; "month"; "3month"; "6month"; "year" ].

(** The name under which [get_financials] looks its key up. *)
Definition financials_key_name : string := "SERP_API_K EY".

Definition get_financials (w : World) (q : string) (window gl hl : option string)
  : M dict :=
  if truthy_str window
     && negb (PyStr.mem (match window with Some x => x | None => "" end)
                valid_windows)
  then
    ret (create_error_response w q
           ("Invalid window '" ++ match window with Some x => x | None => "" end
            ++ "'. Valid windows: " ++ PyStr.join ", " valid_windows)
           "financials")
  else
  let api_key := getenv w financials_key_name in
  if negb (truthy_str api_key) then
    ret (create_error_response w q "SERP_API_KEY not configured" "financials")
  else
  let params :=
    [ ("engine", VStr "google_finance");
      ("q", VStr q);
      ("api_key", key_of api_key) ] in
  let params := set_if "window" window params in
  let params := set_if "gl" gl params in
  let params := set_if "hl" hl params in
  data <- search_google w params ;;
  if has_key "error" data then
    e <- lift (getitem data "error") ;;
    ret (create_error_response w q ("API Error: " ++ py_str w e) "financials")
  else ret (create_success_response w q data "financials").

Definition valid_categories : list string :=
  [ "all"; "latest"; "opinion"; "press_releases" ].

Definition get_stock_news (w : World) (q : string) (category : option string)
    (num : Z) (start : option Z) (gl hl : option string) : M dict :=
  if ((num <? 1) || (num >? 100))%Z then
    ret (create_error_response w q
           "Number of news items must be between 1 and 100" "news")
  else
  if truthy_str category
     && negb (PyStr.mem (match category with Some x => x | None => "" end)
                valid_categories)
  then
    ret (create_error_response w q
           ("Invalid category '"
            ++ match category with Some x => x | None => "" end
            ++ "'. Valid categories: " ++ PyStr.join ", " valid_categories)
           "news")
  else
  let api_key := SERP_API_KEY w in
  if negb (truthy_str api_key) then
    ret (create_error_response w q "SERP_API_KEY not configured" "news")
  else
  let params :=
    [ ("engine", VStr "google_finance");
      ("q", VStr q);
      ("api_key", key_of api_key) ] in
  let params :=
    match category with
    | Some c =>
        if PyStr.nonempty c && negb (String.eqb c "all")
        then set "category" (VStr c) params else params
    | None => params
    end in
  let params :=
    if negb (num =? 10)%Z then set "num" (VInt num) params else params in
  let params :=
    match start with
    | Some st => if negb (st =? 0)%Z then set "start" (VInt st) params else params
    | None => params
    end in
  let params := set_if "gl" gl params in
  let params := set_if "hl" hl params in
  data <- search_google w params ;;
  if has_key "error" data then
    e <- lift (getitem data "error") ;;
    ret (create_error_response w q ("API Error: " ++ py_str w e) "news")
  else ret (create_success_response w q data "news").

Definition debug_api_response (w : World) (q engine : string)
    (gl hl : option string) : M dict :=
  let api_key := SERP_API_KEY w in
  if negb (truthy_str api_key) then
    ret (create_error_response w q "SERP_API_KEY not configured" "debug")
  else
  let params := [ ("engine", VStr engine); ("api_key", key_of api_key) ] in
  let params :=
    if String.eqb engine "google_finance" then set "q" (VStr q) params
    else if String.eqb engine "google_finance_markets"
         then set "trend" (VStr q) params
         else params in
  let params := set_if "gl" gl params in
  let params := set_if "hl" hl params in
  data <- search_google w params ;;
  if has_key "error" data then
    e <- lift (getitem data "error") ;;
    ret (create_error_response w q ("Debug API Error: " ++ py_str w e) "debug")
  else
    ret [ ("tool", VStr "debug");
          ("query", VStr q);
          ("engine", VStr engine);
          ("timestamp", VStr (now_isoformat w));
          ("success", VBool true);
          ("api_response", VDict data) ].

(** *** The tools the server registers, as one type of calls *)

Inductive tool_call : Type :=
| Call_google_flights
    (departure_airport arrival_airport departure_date : string)
    (return_date airline_name travel_class : option string)
    (max_price : option Z) (max_results : Z) (passengers : option Z)
| Call_get_stock_quote (q : string) (gl hl : option string)
| Call_get_market_data (trend : string) (gl hl : option string)
| Call_get_graph_data (q period : string) (gl hl : option string)
| Call_compare_stocks (q period : string) (gl hl : option string)
| Call_get_financials (q : string) (window gl hl : option string)
| Call_get_stock_news (q : string) (category : option string) (num : Z)
    (start : option Z) (gl hl : option string)
| Call_debug_api_response (q engine : string) (gl hl : option string).

Definition handle (w : World) (c : tool_call) : M dict :=
  match c with
  | Call_google_flights d a dd rd an tc mp mr p =>
      google_flights w d a dd rd an tc mp mr p
  | Call_get_stock_quote q gl hl => get_stock_quote w q gl hl
  | Call_get_market_data t gl hl => get_market_data w t gl hl
  | Call_get_graph_data q p gl hl => get_graph_data w q p gl hl
  | Call_compare_stocks q p gl hl => compare_stocks w q p gl hl
  | Call_get_financials q win gl hl => get_financials w q win gl hl
  | Call_get_stock_news q c n s gl hl => get_stock_news w q c n s gl hl
  | Call_debug_api_response q e gl hl => debug_api_response w q e gl hl
  end.

End Tools.

(** ** Vocabulary of the statements *)

Module Statements.

Import Finance Flights Tools.

(** *** Query normaliser *)

Fixpoint count (sep : ascii) (s : string) : nat :=
  match s with
  | "" => 0
  | String c s' => (if Ascii.eqb c sep then 1 else 0) + count sep s'
  end.

(** The text before the first [sep], and the text after it. *)
Fixpoint before (sep : ascii) (s : string) : string :=
  match s with
  | "" => ""
  | String c s' => if Ascii.eqb c sep then "" else String c (before sep s')
  end.

Fixpoint after (sep : ascii) (s : string) : string :=
  match s with
  | "" => ""
  | String c s' => if Ascii.eqb c sep then s' else after sep s'
  end.

(** "Exactly one colon whose left part is entirely uppercase letters and
    contains no digits". *)
Definition upper_letters_only (p : string) : bool :=
  PyStr.nonempty p && PyStr.str_all PyStr.char_isupper p.

Definition stated_swap (q : string) : bool :=
  (count ":" q =? 1)%nat
  && upper_letters_only (before ":" q)
  && negb (PyStr.str_any PyStr.char_isdigit (before ":" q)).

(** What the code tests: one colon, a left part with a capital letter,
    without small letters and without digits. *)
Definition code_swap (q : string) : bool :=
  (count ":" q =? 1)%nat
  && PyStr.str_any PyStr.char_isupper (before ":" q)
  && negb (PyStr.str_any PyStr.char_islower (before ":" q))
  && negb (PyStr.str_any PyStr.char_isdigit (before ":" q)).

Definition swapped (q : string) : string := after ":" q ++ ":" ++ before ":" q.

(** *** Credentials *)

Definition credential_absent (w : World) : Prop :=
  truthy_str (SERP_API_KEY w) = false.

(** The key a handler looks up. *)
Definition key_read (w : World) (c : tool_call) : option string :=
  match c with
  | Call_get_financials _ _ _ _ => getenv w financials_key_name
  | _ => SERP_API_KEY w
  end.

Definition reads_SERP_API_KEY (c : tool_call) : bool :=
  match c with
  | Call_get_financials _ _ _ _ => false
  | _ => true
  end.

(** *** Handlers *)

Definition is_flight_call (c : tool_call) : bool :=
  match c with
  | Call_google_flights _ _ _ _ _ _ _ _ _ => true
  | _ => false
  end.

Definition is_quote_call (c : tool_call) : bool :=
  match c with
  | Call_get_stock_quote _ _ _ => true
  | _ => false
  end.

(** The [query] field of a finance envelope: the argument the handler
    passes to the envelope constructors. *)
Definition query_of (c : tool_call) : string :=
  match c with
  | Call_google_flights _ _ _ _ _ _ _ _ _ => ""
  | Call_get_stock_quote q _ _ => q
  | Call_get_market_data trend _ _ => trend
  | Call_get_graph_data q _ _ _ => q
  | Call_compare_stocks q _ _ _ => q
  | Call_get_financials q _ _ _ => q
  | Call_get_stock_news q _ _ _ _ _ => q
  | Call_debug_api_response q _ _ _ => q
  end.

Definition tool_tag (c : tool_call) : string :=
  match c with
  | Call_google_flights _ _ _ _ _ _ _ _ _ => ""
  | Call_get_stock_quote _ _ _ => "stock_quote"
  | Call_get_market_data _ _ _ => "market_data"
  | Call_get_graph_data _ _ _ _ => "graph_data"
  | Call_compare_stocks _ _ _ _ => "comparison"
  | Call_get_financials _ _ _ _ => "financials"
  | Call_get_stock_news _ _ _ _ _ _ => "news"
  | Call_debug_api_response _ _ _ _ => "debug"
  end.

(** An optional argument is absent, empty, or in the list. *)
Definition in_set (o : option string) (l : list string) : bool :=
  negb (truthy_str o
        && negb (PyStr.mem (match o with Some x => x | None => "" end) l)).

(** The arguments of the call pass the handler's own checks. *)
Definition passes_validation (c : tool_call) : bool :=
  match c with
  | Call_google_flights _ _ _ _ _ tc _ _ _ =>
      has_key (travel_class_key tc) TRAVEL_CLASS_MAP
  | Call_get_stock_quote q _ _ => PyStr.nonempty (PyStr.strip q)
  | Call_get_market_data trend _ _ => PyStr.mem trend valid_trends
  | Call_get_graph_data _ period _ _ => PyStr.mem period valid_periods
  | Call_compare_stocks _ period _ _ => PyStr.mem period valid_periods
  | Call_get_financials _ window _ _ => in_set window valid_windows
  | Call_get_stock_news _ category num _ _ _ =>
      negb ((num <? 1) || (num >? 100))%Z && in_set category valid_categories
  | Call_debug_api_response _ _ _ _ => true
  end.

(** *** Envelopes *)

(** Exactly one of [api_response] and [error] is present, and [success]
    tells which. *)
Definition envelope_ok (d : dict) : bool :=
  xorb (has_key "api_response" d) (has_key "error" d)
  && match assoc "success" d with
     | Some (VBool b) => Bool.eqb b (has_key "api_response" d)
     | _ => false
     end.

Definition error_message (d : dict) : option value := assoc "error" d.


(** The client call is cut short by [KeyboardInterrupt], which is not an
    instance of [Exception]. *)
Definition KeyboardInterrupt : base_exn := BaseException "KeyboardInterrupt" "".

Definition interrupted : interrupts := fun _ => Some KeyboardInterrupt.

(** *** Flight search *)

Definition empty_query_error : option value :=
  Some (VStr "Query cannot be empty").

(** The answer of the flight search when the key is missing. *)
Definition flights_key_missing : dict :=
  [("error", VStr "SERP_API_KEY environment variable is required")].

(** The answer of a finance handler when the key is missing. *)
Definition finance_key_missing (w : World) (c : tool_call) : dict :=
  create_error_response w (query_of c) "SERP_API_KEY not configured"
    (tool_tag c).

(** [google_flights("jfk", "lax", "2025-06-01")] *)
Definition one_way_call : tool_call :=
  Call_google_flights "jfk" "lax" "2025-06-01" None None
    default_travel_class None default_max_results default_passengers.

(** The records of a flight-search result. *)
Definition records_of (d : dict) : list value :=
  match assoc "best_flights" d with
  | Some (VList l) => l
  | _ => []
  end.

(** The group has at least one leg. *)
Definition has_legs (g : value) : bool :=
  match g with
  | VDict d => truthy (get d "flights" (VList []))
  | _ => false
  end.

(** The request [google_flights] sends once the class is resolved and
    the key found. *)
Definition flight_request (w : World) (key : string)
    (departure_airport arrival_airport departure_date : string)
    (return_date airline_name : option string) (tier : Z)
    (max_price passengers : option Z) : dict :=
  set "api_key" (VStr key)
    (flight_params w departure_airport arrival_airport departure_date
       return_date airline_name tier max_price (passenger_count passengers)).

(** "Matches a table alias case/hyphen/underscore-insensitively": equal
    to an alias once capitals are lowered and hyphens read as
    underscores. *)
Definition fold_alias (s : string) : string :=
  PyStr.replace "-" "_" (PyStr.lower s).

Definition matches_alias (tc : string) : bool :=
  existsb (fun a => String.eqb (fold_alias tc) (fold_alias a))
    (keys TRAVEL_CLASS_MAP).

(** *** The gateway, seen from a handler *)

(** The dictionary [search_google] hands back for a request. *)
Definition search_result (w : World) (params : dict) : dict :=
  match get_dict w params with
  | Raise e => [("error", VStr (str_exn e))]
  | Ret results =>
      match assoc "error" results with
      | Some e => [("error", e)]
      | None => results
      end
  end.

(** The two ways a handler answers after the gateway has returned. *)
Definition reply (data : dict) (on_error : value -> dict)
    (on_success : dict -> dict) : dict :=
  match assoc "error" data with
  | Some e => on_error e
  | None => on_success data
  end.

(** What [google_flights] answers once the gateway has returned [data]. *)
Definition flight_reply (w : World) (data : dict) (max_results : Z) : dict :=
  match assoc "error" data with
  | Some e => [("error", VStr ("SerpAPI error: " ++ py_str w e))]
  | None =>
      let best_flights := get data "best_flights" (VList []) in
      if negb (truthy best_flights) then [("message", VStr "No flights found.")]
      else
        match (let? sliced := slice_to best_flights max_results in
               parse_flights w sliced) with
        | Ret parsed_flights =>
            [("best_flights", VList (map VDict parsed_flights))]
        | Raise e =>
            [("error", VStr ("Error searching flights: " ++ str_exn e))]
        end
  end.

(** *** Worlds used in the examples *)

Definition env_with_key (name : string) : option string :=
  if String.eqb name "SERP_API_KEY" then Some "secret" else None.

Definition env_empty (name : string) : option string := None.

Definition world_of (env : string -> option string) (body : res dict) : World :=
  {| getenv := env;
     get_dict := fun _ => body;
     now_isoformat := "2025-06-01T12:00:00";
     repr := fun _ => "?";
     FlightDetails := fun kwargs => Ret kwargs;
     wide_upper := fun _ => VNone |}.

Definition no_results : dict := [ ("search_metadata", VDict []) ].

Definition two_groups : list value :=
  [ VDict [ ("flights", VList []); ("price", VInt 100) ];
    VDict [ ("flights",
             VList [ VDict [ ("airline", VStr "Delta");
                             ("departure_airport",
                              VDict [ ("id", VStr "JFK");
                                      ("time", VStr "2025-06-01 08:00") ]) ] ]);
            ("price", VInt 250) ] ].

Definition flights_body : dict := [ ("best_flights", VList two_groups) ].

End Statements.

(** ** google_finance_utils.py: the enumerations *)

Module Enums.

Module MarketTrend.
Inductive t : Type :=
| INDEXES | MOST_ACTIVE | GAINERS | LOSERS | CLIMATE_LEADERS
| CRYPTOCURRENCIES | CURRENCIES.

Definition value (x : t) : string :=
  match x with
  | INDEXES => "indexes"
  | MOST_ACTIVE => "most-active"
  | GAINERS => "gainers"
  | LOSERS => "losers"
  | CLIMATE_LEADERS => "climate-leaders"
  | CRYPTOCURRENCIES => "cryptocurrencies"
  | CURRENCIES => "currencies"
  end.
End MarketTrend.

Module GraphPeriod.
Inductive t : Type :=
| ONE_DAY | FIVE_DAYS | ONE_MONTH | SIX_MONTHS | YEAR_TO_DATE | ONE_YEAR
| FIVE_YEARS | MAX.

Definition value (x : t) : string :=
  match x with
  | ONE_DAY => "1d"
  | FIVE_DAYS => "5d"
  | ONE_MONTH => "1m"
  | SIX_MONTHS => "6m"
  | YEAR_TO_DATE => "ytd"
  | ONE_YEAR => "1y"
  | FIVE_YEARS => "5y"
  | MAX => "max"
  end.
End GraphPeriod.

Module NewsCategory.
Inductive t : Type := ALL | LATEST | OPINION | PRESS_RELEASES.

Definition value (x : t) : string :=
  match x with
  | ALL => "all"
  | LATEST => "latest"
  | OPINION => "opinion"
  | PRESS_RELEASES => "press_releases"
  end.
End NewsCategory.

Module Window.
Inductive t : Type := WEEK | MONTH | THREE_MONTHS | SIX_MONTHS | YEAR.

Definition value (x : t) : string :=
  match x with
  | WEEK => "week"
  | MONTH => "month"
  | THREE_MONTHS => "3month"
  | SIX_MONTHS => "6month"
  | YEAR => "year"
  end.
End Window.

End Enums.

(** ** Further vocabulary: requests and answers of the handlers *)

Module Coverage.

Import Finance Flights Tools Statements.

(** The [engine] a handler addresses. *)
Definition engine_of (c : tool_call) : string :=
  match c with
  | Call_google_flights _ _ _ _ _ _ _ _ _ => "google_flights"
  | Call_get_market_data _ _ _ => "google_finance_markets"
  | Call_debug_api_response _ engine _ _ => engine
  | _ => "google_finance"
  end.

(** The localisation arguments of a finance or debug call. *)
Definition gl_of (c : tool_call) : option string :=
  match c with
  | Call_google_flights _ _ _ _ _ _ _ _ _ => None
  | Call_get_stock_quote _ gl _ => gl
  | Call_get_market_data _ gl _ => gl
  | Call_get_graph_data _ _ gl _ => gl
  | Call_compare_stocks _ _ gl _ => gl
  | Call_get_financials _ _ gl _ => gl
  | Call_get_stock_news _ _ _ _ gl _ => gl
  | Call_debug_api_response _ _ gl _ => gl
  end.

Definition hl_of (c : tool_call) : option string :=
  match c with
  | Call_google_flights _ _ _ _ _ _ _ _ _ => None
  | Call_get_stock_quote _ _ hl => hl
  | Call_get_market_data _ _ hl => hl
  | Call_get_graph_data _ _ _ hl => hl
  | Call_compare_stocks _ _ _ hl => hl
  | Call_get_financials _ _ _ hl => hl
  | Call_get_stock_news _ _ _ _ _ hl => hl
  | Call_debug_api_response _ _ _ hl => hl
  end.

(** What a request carries for an optional argument: the value when it is
    given and not empty (not zero), nothing otherwise. *)
Definition sent_str (o : option string) : option value :=
  if truthy_str o then option_map VStr o else None.

Definition sent_int (o : option Z) : option value :=
  if truthy_int o then option_map VInt o else None.

(** The prefix a handler puts before an error of the gateway. *)
Definition error_prefix (c : tool_call) : string :=
  match c with
  | Call_google_flights _ _ _ _ _ _ _ _ _ => "SerpAPI error: "
  | Call_debug_api_response _ _ _ _ => "Debug API Error: "
  | _ => "API Error: "
  end.

(** An optional argument that is empty (zero) replaced by an absent one. *)
Definition drop_str (o : option string) : option string :=
  if truthy_str o then o else None.

Definition drop_int (o : option Z) : option Z :=
  if truthy_int o then o else None.

Definition drop_falsy (c : tool_call) : tool_call :=
  match c with
  | Call_google_flights d a dd rd an tc mp mr p =>
      Call_google_flights d a dd (drop_str rd) (drop_str an) (drop_str tc)
        (drop_int mp) mr (drop_int p)
  | Call_get_stock_quote q gl hl =>
      Call_get_stock_quote q (drop_str gl) (drop_str hl)
  | Call_get_market_data t gl hl =>
      Call_get_market_data t (drop_str gl) (drop_str hl)
  | Call_get_graph_data q p gl hl =>
      Call_get_graph_data q p (drop_str gl) (drop_str hl)
  | Call_compare_stocks q p gl hl =>
      Call_compare_stocks q p (drop_str gl) (drop_str hl)
  | Call_get_financials q win gl hl =>
      Call_get_financials q (drop_str win) (drop_str gl) (drop_str hl)
  | Call_get_stock_news q c n s gl hl =>
      Call_get_stock_news q (drop_str c) n (drop_int s) (drop_str gl)
        (drop_str hl)
  | Call_debug_api_response q e gl hl =>
      Call_debug_api_response q e (drop_str gl) (drop_str hl)
  end.

(** The records of a malformed payload: the first leg of the second group
    is a string. *)
Definition broken_groups : list value :=
  [ VDict [ ("flights", VList [ VDict [ ("airline", VStr "Delta") ] ]) ];
    VDict [ ("flights", VList [ VStr "DL 42" ]) ] ].

Definition broken_body : dict := [ ("best_flights", VList broken_groups) ].

(** The first word of a text: what stands between the leading white space
    and the next white space, or the end. *)
Fixpoint until_space (s : string) : string :=
  match s with
  | "" => ""
  | String c s' =>
      if PyStr.char_isspace c then "" else String c (until_space s')
  end.

Definition first_word (s : string) : string := until_space (PyStr.lstrip s).

(** A first leg whose two airports are dictionaries, with its departure
    time. *)
Definition leg_at (time : value) : dict :=
  [ ("departure_airport", VDict [ ("id", VStr "JFK"); ("time", time) ]);
    ("arrival_airport", VDict [ ("id", VStr "LAX") ]) ].

Definition env_financials_only (name : string) : option string :=
  if String.eqb name financials_key_name then Some "other" else None.

End Coverage.

Import Finance Flights Tools Statements.
Import Coverage.

(** * Properties *)

(** ** Strings *)

Example strip_both_ends : PyStr.strip "  ab c  " = "ab c".
Proof. reflexivity. Qed.

Example upper_airport : PyStr.upper "jfk" = Some "JFK".
Proof. reflexivity. Qed.

Example split_two_colons : PyStr.split ":" "a:b:c" = ["a"; "b"; "c"].
Proof. reflexivity. Qed.

Example split_words : split_ws " 2025-06-01  08:00 " = ["2025-06-01"; "08:00"].
Proof. reflexivity. Qed.

Example isupper_cases :
  PyStr.isupper "NASDAQ" = true /\ PyStr.isupper "BRK.A" = true
  /\ PyStr.isupper "Nasdaq" = false /\ PyStr.isupper "" = false
  /\ PyStr.isupper "123" = false.
Proof. repeat split. Qed.

Example class_key_folded :
  travel_class_key (Some " Premium-Economy ") = "premium_economy".
Proof. reflexivity. Qed.

Example slice_negative_bound :
  slice_to (VList [VInt 1; VInt 2; VInt 3]) (-1) = Ret (VList [VInt 1; VInt 2]).
Proof. reflexivity. Qed.

Example second_group_flattened :
  exists r,
    parse_group (world_of env_with_key (Ret flights_body)) (nth 1 two_groups VNone)
    = Ret (Some r)
    /\ assoc "departure_date" r = Some (VStr "2025-06-01")
    /\ assoc "airline" r = Some (VStr "Delta")
    /\ assoc "price" r = Some (VInt 250)
    /\ assoc "passenger" r = Some (VInt 1).
Proof. eexists. split; [reflexivity|]. repeat split. Qed.

Lemma split_length (sep : ascii) (s : string) :
  List.length (PyStr.split sep s) = S (count sep s).
Proof.
  induction s as [|c s IH]; simpl; [reflexivity|].
  destruct (Ascii.eqb c sep); simpl.
  - now rewrite IH.
  - destruct (PyStr.split sep s); simpl in *; congruence.
Qed.

Lemma split_none (sep : ascii) (s : string) :
  count sep s = 0 -> PyStr.split sep s = [s].
Proof.
  induction s as [|c s IH]; simpl; [reflexivity|].
  destruct (Ascii.eqb c sep); simpl; [discriminate|].
  intros H. now rewrite (IH H).
Qed.

Lemma split_one (sep : ascii) (s : string) :
  count sep s = 1 -> PyStr.split sep s = [before sep s; after sep s].
Proof.
  induction s as [|c s IH]; simpl; [discriminate|].
  destruct (Ascii.eqb c sep) eqn:E; simpl; intros H.
  - rewrite split_none by lia. reflexivity.
  - rewrite (IH H). reflexivity.
Qed.

Lemma contains_count (sep : ascii) (s : string) :
  PyStr.contains sep s = negb (count sep s =? 0)%nat.
Proof.
  unfold PyStr.contains.
  induction s as [|c s IH]; simpl; [reflexivity|].
  rewrite Ascii.eqb_sym. destruct (Ascii.eqb c sep); simpl; auto.
Qed.

Lemma isupper_from_spec (s : string) (cased : bool) :
  PyStr.isupper_from cased s
  = negb (PyStr.str_any PyStr.char_islower s)
    && (cased || PyStr.str_any PyStr.char_isupper s).
Proof.
  revert cased. induction s as [|c s IH]; intros cased; simpl.
  - now rewrite orb_false_r.
  - destruct (PyStr.char_islower c); simpl; [reflexivity|].
    rewrite IH. now rewrite orb_assoc.
Qed.

Lemma isupper_spec (s : string) :
  PyStr.isupper s
  = PyStr.str_any PyStr.char_isupper s
    && negb (PyStr.str_any PyStr.char_islower s).
Proof. unfold PyStr.isupper. rewrite isupper_from_spec. simpl. apply andb_comm. Qed.

Lemma normalize_query_spec (q : string) :
  normalize_query q = if code_swap q then swapped q else q.
Proof.
  unfold normalize_query, code_swap, swapped.
  rewrite contains_count.
  destruct (count ":" q) as [|[|n]] eqn:C; simpl.
  - reflexivity.
  - rewrite (split_one ":" q C), isupper_spec.
    rewrite <- andb_assoc. reflexivity.
  - assert (L := split_length ":" q). rewrite C in L.
    destruct (PyStr.split ":" q) as [|p0 [|p1 [|p2 ps]]]; simpl in L;
      try lia; reflexivity.
Qed.

(** ** The monad and the gateway *)

Lemma has_key_assoc {A : Type} (k : string) (d : list (string * A)) :
  has_key k d = match assoc k d with Some _ => true | None => false end.
Proof. reflexivity. Qed.

(** The gateway under [i]: what is raised from outside [Exception] goes
    through its [except] clause; everything else ends in a returned
    dictionary. *)
Lemma search_google_under (w : World) (params : dict) (i : interrupts)
    (log : list dict) :
  search_google w params i log
  = (match i params with
     | Some b => Raise (Outside b)
     | None => Ret (search_result w params)
     end,
     (log ++ [params])%list).
Proof.
  unfold search_google, search_result, try_except, bind, request, lift, ret,
    has_key, getitem.
  destruct (i params); [reflexivity|].
  destruct (get_dict w params) as [results|e]; [|reflexivity].
  destruct (assoc "error" results); reflexivity.
Qed.

Lemma search_google_run (w : World) (params : dict) (log : list dict) :
  search_google w params never log
  = (Ret (search_result w params), (log ++ [params])%list).
Proof. now rewrite search_google_under. Qed.

(** The common tail of the handlers: call the gateway, then wrap either
    the in-band error or the payload. *)
Lemma gateway_then_reply_under (w : World) (params : dict)
    (on_error : value -> dict) (on_success : dict -> dict) (i : interrupts)
    (log : list dict) :
  (data <- search_google w params ;;
   if has_key "error" data then
     e <- lift (getitem data "error") ;; ret (on_error e)
   else ret (on_success data)) i log
  = (match i params with
     | Some b => Raise (Outside b)
     | None => Ret (reply (search_result w params) on_error on_success)
     end,
     (log ++ [params])%list).
Proof.
  unfold bind at 1. rewrite search_google_under.
  destruct (i params); [reflexivity|].
  unfold reply, has_key, getitem, bind, lift, ret.
  destruct (assoc "error" (search_result w params)); reflexivity.
Qed.

Lemma gateway_then_reply (w : World) (params : dict)
    (on_error : value -> dict) (on_success : dict -> dict) (log : list dict) :
  (data <- search_google w params ;;
   if has_key "error" data then
     e <- lift (getitem data "error") ;; ret (on_error e)
   else ret (on_success data)) never log
  = (Ret (reply (search_result w params) on_error on_success),
     (log ++ [params])%list).
Proof. now rewrite gateway_then_reply_under. Qed.

(** ** Running the flight search *)

Lemma truthy_str_some (o : option string) :
  truthy_str o = true -> exists k, o = Some k /\ PyStr.nonempty k = true.
Proof. destruct o as [k|]; simpl; [eauto | discriminate]. Qed.

Lemma google_flights_invalid (w : World) d a dd rd an tc mp mr p log :
  assoc (travel_class_key tc) TRAVEL_CLASS_MAP = None ->
  google_flights w d a dd rd an tc mp mr p never log
  = (Ret (invalid_travel_class tc), log).
Proof. intros H. unfold google_flights. rewrite H. reflexivity. Qed.

Lemma google_flights_no_key (w : World) d a dd rd an tc mp mr p log tier :
  assoc (travel_class_key tc) TRAVEL_CLASS_MAP = Some tier ->
  truthy_str (SERP_API_KEY w) = false ->
  google_flights w d a dd rd an tc mp mr p never log
  = (Ret [("error", VStr "SERP_API_KEY environment variable is required")], log).
Proof. intros H K. unfold google_flights. rewrite H, K. reflexivity. Qed.

Lemma google_flights_run (w : World) d a dd rd an tc mp mr p log tier key :
  assoc (travel_class_key tc) TRAVEL_CLASS_MAP = Some tier ->
  SERP_API_KEY w = Some key -> PyStr.nonempty key = true ->
  google_flights w d a dd rd an tc mp mr p never log
  = (Ret (flight_reply w (search_result w (flight_request w key d a dd rd an tier mp p)) mr),
     (log ++ [flight_request w key d a dd rd an tier mp p])%list).
Proof.
  intros H K N. unfold google_flights. rewrite H, K.
  change (truthy_str (Some key)) with (PyStr.nonempty key).
  rewrite N. change (negb true) with false. cbv iota.
  fold (flight_request w key d a dd rd an tier mp p).
  unfold try_except, bind at 1. cbv beta. rewrite search_google_run.
  unfold flight_reply, has_key, getitem, bind, lift, ret, res_bind.
  destruct (assoc "error" (search_result w _)); [reflexivity|].
  cbv zeta.
  destruct (negb (truthy (get (search_result w _) "best_flights" (VList [])))); [reflexivity|].
  destruct (slice_to _ mr); [|reflexivity].
  destruct (parse_flights w _); reflexivity.
Qed.

(** Whatever happens, the flight search answers with a one-entry
    dictionary: an error, the no-result message, or the records. *)
Lemma flight_reply_keys (w : World) (data : dict) (mr : Z) :
  keys (flight_reply w data mr) = ["error"]
  \/ keys (flight_reply w data mr) = ["message"]
  \/ keys (flight_reply w data mr) = ["best_flights"].
Proof.
  unfold flight_reply.
  destruct (assoc "error" data); [now left|]. cbv zeta.
  destruct (negb _); [now right; left|].
  destruct (res_bind _ _); [now right; right | now left].
Qed.

Lemma google_flights_total (w : World) d a dd rd an tc mp mr p log :
  exists out log',
    google_flights w d a dd rd an tc mp mr p never log = (Ret out, log')
    /\ (keys out = ["error"] \/ keys out = ["message"]
        \/ keys out = ["best_flights"]).
Proof.
  destruct (assoc (travel_class_key tc) TRAVEL_CLASS_MAP) as [tier|] eqn:H.
  - destruct (truthy_str (SERP_API_KEY w)) eqn:K.
    + destruct (truthy_str_some _ K) as (key & Ek & Nk).
      rewrite (google_flights_run w d a dd rd an tc mp mr p log tier key H Ek Nk).
      do 2 eexists. split; [reflexivity|]. apply flight_reply_keys.
    + rewrite (google_flights_no_key w d a dd rd an tc mp mr p log tier H K).
      do 2 eexists. split; [reflexivity|]. now left.
  - rewrite (google_flights_invalid w d a dd rd an tc mp mr p log H).
    do 2 eexists. split; [reflexivity|]. now left.
Qed.

(** ** Running the finance handlers *)

(** Split on the checks a handler makes before it builds its request. *)
Ltac split_checks :=
  repeat match goal with
    | |- context [if ?b then ret _ else _] => destruct b eqn:?
    end.

(** Bring a finance handler to its outcomes: one goal per early return and
    one for the answer built from the gateway's result. *)
Ltac run_finance :=
  unfold outcome, requests, run, run_under,
    get_stock_quote, get_market_data, get_graph_data, compare_stocks,
    get_financials, get_stock_news, debug_api_response;
  cbv zeta; split_checks;
  try rewrite gateway_then_reply;
  unfold ret; cbn [fst snd app].

Lemma envelope_ok_error (w : World) (query error tool_type : string) :
  envelope_ok (create_error_response w query error tool_type) = true.
Proof. reflexivity. Qed.

Lemma envelope_ok_success (w : World) (query : string) (data : dict)
    (tool_type : string) :
  envelope_ok (create_success_response w query data tool_type) = true.
Proof. reflexivity. Qed.

Lemma envelope_ok_reply (data : dict) (on_error : value -> dict)
    (on_success : dict -> dict) :
  (forall e, envelope_ok (on_error e) = true) ->
  (forall d, envelope_ok (on_success d) = true) ->
  envelope_ok (reply data on_error on_success) = true.
Proof. intros HE HS. unfold reply. destruct (assoc "error" data); auto. Qed.

Lemma finance_envelope (w : World) (c : tool_call) :
  is_flight_call c = false ->
  exists d, outcome (handle w c) = Ret d /\ envelope_ok d = true.
Proof.
  destruct c; simpl; intros F; try discriminate;
    run_finance;
    (eexists; split; [reflexivity|]);
    try reflexivity;
    (apply envelope_ok_reply; intros; reflexivity).
Qed.

Lemma assoc_set_other (k k' : string) (v : value) (d : dict) :
  String.eqb k' k = false -> assoc k (set k' v d) = assoc k d.
Proof.
  intros N. induction d as [|[k0 v0] d IH]; simpl.
  - rewrite N. reflexivity.
  - destruct (String.eqb k0 k') eqn:E; simpl.
    + apply String.eqb_eq in E. subst k0. rewrite N. reflexivity.
    + destruct (String.eqb k0 k); auto.
Qed.

Lemma assoc_set_if_other (k k' : string) (o : option string) (d : dict) :
  String.eqb k' k = false -> assoc k (set_if k' o d) = assoc k d.
Proof.
  intros N. unfold set_if. destruct o as [s|]; [|reflexivity].
  destruct (PyStr.nonempty s); [|reflexivity].
  now apply assoc_set_other.
Qed.

Lemma isupper_not_islower (c : ascii) :
  PyStr.char_isupper c = true -> PyStr.char_islower c = false.
Proof.
  destruct c as [[] [] [] [] [] [] [] []]; vm_compute; congruence.
Qed.

Lemma upper_letters_no_lower (p : string) :
  PyStr.str_all PyStr.char_isupper p = true ->
  PyStr.str_any PyStr.char_islower p = false.
Proof.
  induction p as [|c p IH]; simpl; [reflexivity|].
  intros H. apply andb_true_iff in H as [Hc Hp].
  now rewrite (isupper_not_islower c Hc), (IH Hp).
Qed.

Lemma upper_letters_some_upper (p : string) :
  upper_letters_only p = true -> PyStr.str_any PyStr.char_isupper p = true.
Proof.
  unfold upper_letters_only. destruct p as [|c p]; simpl; [discriminate|].
  intros H. apply andb_true_iff in H as [Hc _]. now rewrite Hc.
Qed.

Lemma stated_swap_code_swap (q : string) :
  stated_swap q = true -> code_swap q = true.
Proof.
  unfold stated_swap, code_swap. intros H.
  apply andb_true_iff in H as [H Hd]. apply andb_true_iff in H as [Hc Hu].
  rewrite Hc, Hd, (upper_letters_some_upper _ Hu). simpl.
  unfold upper_letters_only in Hu. apply andb_true_iff in Hu as [_ Hu].
  now rewrite (upper_letters_no_lower _ Hu).
Qed.

Lemma get_stock_quote_request (w : World) (q : string) (gl hl : option string)
    (key : string) :
  SERP_API_KEY w = Some key -> PyStr.nonempty key = true ->
  PyStr.nonempty (PyStr.strip q) = true ->
  exists p, requests (get_stock_quote w q gl hl) = [p]
            /\ assoc "q" p = Some (VStr (normalize_query q)).
Proof.
  intros K N Q. unfold requests, run, run_under, get_stock_quote. cbv zeta.
  rewrite Q, K. change (truthy_str (Some key)) with (PyStr.nonempty key).
  rewrite N. cbn [negb]. rewrite gateway_then_reply. cbn [snd app].
  eexists. split; [reflexivity|].
  rewrite !assoc_set_if_other by reflexivity. reflexivity.
Qed.

(** ** The claims *)

(** C1 (the code departs from the claim).  The query BRK.A:NYSE has one
    colon and a left part that is not made of capital letters only, so the
    claim has it returned unchanged, as the function's promise of a result
    in symbol:exchange form also requires; the code swaps it to
    NYSE:BRK.A, because [isupper] does not look at the dot. *)
Theorem C1_dotted_symbol_swapped :
  stated_swap "BRK.A:NYSE" = false
  /\ normalize_query "BRK.A:NYSE" = "NYSE:BRK.A"
  /\ normalize_query "BRK.A:NYSE" <> "BRK.A:NYSE".
Proof. repeat split. vm_compute. discriminate. Qed.

(** C2 (the code departs from the claim).  A second pass swaps the
    canonical form back: on NASDAQ:AAPL the normaliser gives AAPL:NASDAQ,
    and on AAPL:NASDAQ it gives NASDAQ:AAPL, so applying it twice is not
    applying it once. *)
Theorem C2_second_pass_swaps_back :
  normalize_query "NASDAQ:AAPL" = "AAPL:NASDAQ"
  /\ normalize_query "AAPL:NASDAQ" = "NASDAQ:AAPL"
  /\ normalize_query (normalize_query "NASDAQ:AAPL")
     <> normalize_query "NASDAQ:AAPL".
Proof. repeat split. vm_compute. discriminate. Qed.

(** C3 (as stated, refuted).  The claim extends the envelope invariant to
    every value returned by every handler; the flight search that finds
    nothing returns the bare message, with neither field and no success
    flag. *)
Lemma C3_counterexample :
  ~ (forall (w : World) (c : tool_call) (d : dict),
       outcome (handle w c) = Ret d -> envelope_ok d = true).
Proof.
  intros H.
  specialize (H (world_of env_with_key (Ret no_results))
                (Call_google_flights "jfk" "lax" "2025-06-01" None None
                   default_travel_class None default_max_results
                   default_passengers)
                [("message", VStr "No flights found.")] eq_refl).
  discriminate H.
Qed.

(** C3 (amended).  Both envelope constructors, and every value returned by
    the seven finance and debug handlers, carry exactly one of
    [api_response] and [error], with [success] true exactly when
    [api_response] is the one present.  The flight search does not build
    envelopes: it returns a one-entry dictionary whose key is [error],
    [message] or [best_flights]. *)
Theorem C3_envelope_invariant (w : World) (c : tool_call) :
  (forall query error tool_type,
      envelope_ok (create_error_response w query error tool_type) = true)
  /\ (forall query data tool_type,
         envelope_ok (create_success_response w query data tool_type) = true)
  /\ (is_flight_call c = false ->
      exists d, outcome (handle w c) = Ret d /\ envelope_ok d = true)
  /\ (is_flight_call c = true ->
      exists d, outcome (handle w c) = Ret d
                /\ (keys d = ["error"] \/ keys d = ["message"]
                    \/ keys d = ["best_flights"])).
Proof.
  split; [intros; apply envelope_ok_error|].
  split; [intros; apply envelope_ok_success|].
  split; [apply finance_envelope|].
  destruct c; simpl; try discriminate. intros _.
  destruct (google_flights_total w departure_airport arrival_airport
              departure_date return_date airline_name travel_class max_price
              max_results passengers []) as (out & log' & E & K).
  exists out. unfold outcome, run, run_under. rewrite E. auto.
Qed.

Lemma C3_envelope_invariant_witness :
  let w := world_of env_with_key (Ret no_results) in
  is_flight_call (Call_get_stock_quote "AAPL" None None) = false
  /\ exists d, outcome (handle w (Call_get_stock_quote "AAPL" None None)) = Ret d
               /\ envelope_ok d = true.
Proof.
  intros w. split; [reflexivity|].
  destruct (C3_envelope_invariant w (Call_get_stock_quote "AAPL" None None))
    as (_ & _ & H & _).
  exact (H eq_refl).
Defined.

(** C6.  A count outside 1..100 makes [get_stock_news] return the error
    envelope that cites the bound, and no request is sent: the check comes
    first, whatever the other arguments and the world are. *)
Theorem C6_news_count_checked_first (w : World) (q : string)
    (category : option string) (num : Z) (start : option Z)
    (gl hl : option string) :
  (num < 1 \/ 100 < num)%Z ->
  run (get_stock_news w q category num start gl hl)
  = (Ret (create_error_response w q
            "Number of news items must be between 1 and 100" "news"),
     []).
Proof.
  intros H. unfold run, run_under, get_stock_news.
  replace ((num <? 1) || (num >? 100))%Z with true; [reflexivity|].
  symmetry. apply orb_true_iff.
  destruct H; [left; apply Z.ltb_lt | right; apply Z.gtb_lt]; lia.
Qed.

Lemma C6_news_count_checked_first_witness :
  let w := world_of env_with_key (Ret no_results) in
  (150 < 1 \/ 100 < 150)%Z
  /\ run (get_stock_news w "AAPL" None 150 None None None)
     = (Ret (create_error_response w "AAPL"
               "Number of news items must be between 1 and 100" "news"),
        []).
Proof.
  intros w. assert (H : (150 < 1 \/ 100 < 150)%Z) by (right; lia).
  split; [exact H|].
  exact (C6_news_count_checked_first w "AAPL" None 150 None None None H).
Defined.

(** ** Requests sent and not sent *)

(** Close a case whose assumed checks contradict each other. *)
Ltac bool_contra :=
  exfalso;
  cbn [passes_validation key_read] in *; unfold in_set in *;
  repeat match goal with
    | H : negb _ = true |- _ => apply negb_true_iff in H
    | H : negb _ = false |- _ => apply negb_false_iff in H
    end;
  try congruence;
  repeat match goal with
    | H : _ && _ = true |- _ => apply andb_true_iff in H; destruct H
    | H : _ || _ = false |- _ => apply orb_false_iff in H; destruct H
    | H : negb _ = true |- _ => apply negb_true_iff in H
    | H : negb _ = false |- _ => apply negb_false_iff in H
    end;
  try congruence;
  repeat match goal with
    | H : ?b = _, H' : context [?b] |- _ => rewrite H in H'
    end;
  simpl in *; congruence.

Lemma flights_requests (w : World) d a dd rd an tc mp mr p :
  requests (google_flights w d a dd rd an tc mp mr p)
  = match assoc (travel_class_key tc) TRAVEL_CLASS_MAP, SERP_API_KEY w with
    | Some tier, Some key =>
        if PyStr.nonempty key then [flight_request w key d a dd rd an tier mp p]
        else []
    | _, _ => []
    end.
Proof.
  unfold requests, run, run_under.
  destruct (assoc (travel_class_key tc) TRAVEL_CLASS_MAP) as [tier|] eqn:H.
  - destruct (SERP_API_KEY w) as [key|] eqn:K.
    + destruct (PyStr.nonempty key) eqn:N.
      * now rewrite (google_flights_run w d a dd rd an tc mp mr p [] tier key H K N).
      * rewrite (google_flights_no_key w d a dd rd an tc mp mr p [] tier H);
          [reflexivity | now rewrite K].
    + rewrite (google_flights_no_key w d a dd rd an tc mp mr p [] tier H);
        [reflexivity | now rewrite K].
  - now rewrite google_flights_invalid.
Qed.

Lemma request_sent (w : World) (c : tool_call) :
  passes_validation c = true -> truthy_str (key_read w c) = true ->
  exists p, requests (handle w c) = [p].
Proof.
  intros V K. destruct c; cbn [handle].
  1: { rewrite flights_requests. cbn [passes_validation key_read] in V, K.
       unfold has_key in V.
       destruct (assoc (travel_class_key travel_class) TRAVEL_CLASS_MAP);
         [|discriminate].
       destruct (truthy_str_some _ K) as (key & -> & ->). eauto. }
  all: run_finance; try bool_contra; eauto.
Qed.

Lemma nothing_sent (w : World) (c : tool_call) :
  passes_validation c = false \/ truthy_str (key_read w c) = false ->
  requests (handle w c) = [].
Proof.
  intros H. destruct c; cbn [handle].
  1: { rewrite flights_requests. cbn [passes_validation key_read] in H.
       unfold has_key in H.
       destruct (assoc (travel_class_key travel_class) TRAVEL_CLASS_MAP);
         [|reflexivity].
       destruct H as [H|H]; [discriminate|].
       destruct (SERP_API_KEY w) as [key|]; [|reflexivity].
       simpl in H. now rewrite H. }
  all: run_finance; try reflexivity; destruct H; bool_contra.
Qed.

(** ** The empty-query check *)

Lemma blank_lstrip (q : string) :
  PyStr.str_all PyStr.char_isspace q = true -> PyStr.lstrip q = "".
Proof.
  induction q as [|c q IH]; simpl; [reflexivity|].
  intros H. apply andb_true_iff in H as [Hc Hq]. rewrite Hc. auto.
Qed.

Lemma blank_strip (q : string) :
  PyStr.str_all PyStr.char_isspace q = true -> PyStr.strip q = "".
Proof. intros H. unfold PyStr.strip. now rewrite (blank_lstrip q H). Qed.

Lemma flight_reply_not_empty_query (w : World) (data : dict) (mr : Z) :
  error_message (flight_reply w data mr) <> empty_query_error.
Proof.
  unfold flight_reply, error_message, empty_query_error.
  destruct (assoc "error" data); [simpl; congruence|]. cbv zeta.
  destruct (negb _); [simpl; congruence|].
  destruct (res_bind _ _); simpl; congruence.
Qed.

Lemma flights_not_empty_query (w : World) d a dd rd an tc mp mr p out :
  outcome (google_flights w d a dd rd an tc mp mr p) = Ret out ->
  error_message out <> empty_query_error.
Proof.
  unfold outcome, run, run_under.
  destruct (assoc (travel_class_key tc) TRAVEL_CLASS_MAP) as [tier|] eqn:H.
  - destruct (truthy_str (SERP_API_KEY w)) eqn:K.
    + destruct (truthy_str_some _ K) as (key & Ek & Nk).
      rewrite (google_flights_run w d a dd rd an tc mp mr p [] tier key H Ek Nk).
      cbn [fst]. intros [= <-]. apply flight_reply_not_empty_query.
    + rewrite (google_flights_no_key w d a dd rd an tc mp mr p [] tier H K).
      cbn [fst]. intros [= <-]. unfold error_message, empty_query_error.
      simpl. congruence.
  - rewrite (google_flights_invalid w d a dd rd an tc mp mr p [] H).
    cbn [fst]. intros [= <-].
    unfold error_message, empty_query_error, invalid_travel_class.
    simpl. congruence.
Qed.

Lemma others_not_empty_query (w : World) (c : tool_call) (d : dict) :
  is_quote_call c = false ->
  outcome (handle w c) = Ret d ->
  error_message d <> empty_query_error.
Proof.
  intros Q. destruct c; try discriminate; cbn [handle].
  1: apply flights_not_empty_query.
  all: run_finance; intros [= <-];
    unfold error_message, empty_query_error, reply;
    try (destruct (assoc "error" (search_result w _)));
    simpl; congruence.
Qed.

(** C10.  A query that is empty or made of white space only makes
    [get_stock_quote] return the error envelope with the message
    "Query cannot be empty", in every world (so before the credential is
    looked at) and without any request.  No other handler makes this
    check: none of them ever reports this message, and a handler given
    such a query still sends its request once its own checks pass and its
    key is present. *)
Theorem C10_empty_query (w : World) (q : string) (gl hl : option string)
    (c : tool_call) :
  PyStr.str_all PyStr.char_isspace q = true ->
  run (get_stock_quote w q gl hl)
  = (Ret (create_error_response w q "Query cannot be empty" "stock_quote"), [])
  /\ (is_quote_call c = false ->
      forall d, outcome (handle w c) = Ret d ->
                error_message d <> Some (VStr "Query cannot be empty"))
  /\ (is_quote_call c = false -> query_of c = q ->
      passes_validation c = true -> truthy_str (key_read w c) = true ->
      exists p, requests (handle w c) = [p]).
Proof.
  intros B. split; [|split].
  - unfold run, run_under, get_stock_quote. now rewrite (blank_strip q B).
  - intros Q d E. exact (others_not_empty_query w c d Q E).
  - intros _ _ V K. exact (request_sent w c V K).
Qed.

Lemma C10_empty_query_witness :
  let w := world_of env_with_key (Ret no_results) in
  let c := Call_get_graph_data "   " "1d" None None in
  PyStr.str_all PyStr.char_isspace "   " = true
  /\ run (get_stock_quote w "   " None None)
     = (Ret (create_error_response w "   " "Query cannot be empty" "stock_quote"),
        [])
  /\ is_quote_call c = false
  /\ query_of c = "   "
  /\ passes_validation c = true
  /\ truthy_str (key_read w c) = true
  /\ exists p, requests (handle w c) = [p].
Proof.
  intros w c.
  destruct (C10_empty_query w "   " None None c eq_refl) as (H1 & _ & H3).
  split; [reflexivity|]. split; [exact H1|].
  do 4 (split; [reflexivity|]).
  exact (H3 eq_refl eq_refl eq_refl eq_refl).
Defined.

(** C8 (as stated, refuted).  The claim has every handler report a missing
    credential in the same shape and with the same message; the flight
    search answers with a bare one-entry dictionary and a message of its
    own. *)
Lemma C8_counterexample :
  ~ (forall (w : World) (c1 c2 : tool_call),
       credential_absent w ->
       exists d1 d2,
         outcome (handle w c1) = Ret d1 /\ outcome (handle w c2) = Ret d2
         /\ keys d1 = keys d2 /\ error_message d1 = error_message d2).
Proof.
  intros H.
  destruct (H (world_of env_empty (Ret no_results)) one_way_call
              (Call_get_stock_quote "AAPL" None None) eq_refl)
    as (d1 & d2 & E1 & E2 & K & _).
  vm_compute in E1, E2. injection E1 as <-. injection E2 as <-.
  discriminate K.
Qed.

(** C8 (amended).  When [SERP_API_KEY] is absent or empty, a handler that
    reads it sends no request; if the arguments pass the handler's own
    checks, which come first, it returns an error: the finance and debug
    handlers the error envelope with the message "SERP_API_KEY not
    configured", their own tool tag and query, and the flight search the
    bare dictionary with the message "SERP_API_KEY environment variable is
    required". *)
Theorem C8_missing_credential (w : World) (c : tool_call) :
  credential_absent w -> reads_SERP_API_KEY c = true ->
  requests (handle w c) = []
  /\ (passes_validation c = true ->
      outcome (handle w c)
      = Ret (if is_flight_call c then flights_key_missing
             else finance_key_missing w c)).
Proof.
  unfold credential_absent. intros A R. split.
  - apply nothing_sent. right. destruct c; try discriminate; exact A.
  - intros V. destruct c; try discriminate; cbn [handle is_flight_call].
    1: { cbn [passes_validation] in V. unfold has_key in V.
         destruct (assoc (travel_class_key travel_class) TRAVEL_CLASS_MAP)
           as [tier|] eqn:T; [|discriminate].
         unfold outcome, run, run_under.
         now rewrite (google_flights_no_key w departure_airport arrival_airport
                        departure_date return_date airline_name travel_class
                        max_price max_results passengers [] tier T A). }
    all: run_finance; try reflexivity; bool_contra.
Qed.

Lemma C8_missing_credential_witness :
  let w := world_of env_empty (Ret no_results) in
  let c := Call_get_stock_news "AAPL" None 10 None None None in
  credential_absent w
  /\ reads_SERP_API_KEY c = true
  /\ passes_validation c = true
  /\ requests (handle w c) = []
  /\ outcome (handle w c)
     = Ret (create_error_response w "AAPL" "SERP_API_KEY not configured" "news").
Proof.
  intros w c.
  destruct (C8_missing_credential w c eq_refl eq_refl) as (H1 & H2).
  do 3 (split; [reflexivity|]). split; [exact H1 | exact (H2 eq_refl)].
Defined.

(** ** The flight search request *)

Lemma payload_without_flights (w : World) (data : dict) (mr : Z) :
  has_key "error" data = false ->
  has_key "best_flights" data = false
  \/ assoc "best_flights" data = Some (VList []) ->
  flight_reply w data mr = [("message", VStr "No flights found.")].
Proof.
  unfold has_key, flight_reply, get. intros E B.
  destruct (assoc "error" data); [discriminate|].
  destruct B as [B|B].
  - destruct (assoc "best_flights" data); [discriminate | reflexivity].
  - rewrite B. reflexivity.
Qed.

Lemma search_result_payload (w : World) (params payload : dict) :
  get_dict w params = Ret payload -> has_key "error" payload = false ->
  search_result w params = payload.
Proof.
  unfold search_result, has_key. intros -> E.
  destruct (assoc "error" payload); [discriminate | reflexivity].
Qed.

(** C5 (as stated, refuted).  The claim has the message returned whenever
    the payload has no [best_flights] entry; a payload that carries an
    in-band error has none either, and the handler reports the error. *)
Lemma C5_counterexample :
  ~ (forall (w : World) (key : string) d a dd rd an tc mp mr p tier
            (payload : dict),
       SERP_API_KEY w = Some key -> PyStr.nonempty key = true ->
       assoc (travel_class_key tc) TRAVEL_CLASS_MAP = Some tier ->
       get_dict w (flight_request w key d a dd rd an tier mp p) = Ret payload ->
       has_key "best_flights" payload = false ->
       outcome (google_flights w d a dd rd an tc mp mr p)
       = Ret [("message", VStr "No flights found.")]).
Proof.
  intros H.
  specialize (H (world_of env_with_key
                   (Ret [("error", VStr "No results for this query.")]))
                "secret" "jfk" "lax" "2025-06-01" None None
                default_travel_class None default_max_results
                default_passengers 1%Z
                [("error", VStr "No results for this query.")]
                eq_refl eq_refl eq_refl eq_refl eq_refl).
  vm_compute in H. discriminate H.
Qed.

(** C5 (amended).  The call [google_flights("jfk", "lax", "2025-06-01")],
    with the defaults of the other arguments, builds a parameter map with
    the airport codes in capitals, [adults] 1, [travel_class] 1 and [type]
    "2", and without [return_date]; with the key added, this is the
    request sent.  For any call, when the payload that comes back carries
    no in-band error and has no [best_flights] entry (or an empty one),
    the handler returns exactly the message "No flights found.", not an
    error and not an empty list of records; when the payload carries an
    in-band error, the handler reports that error, whether or not there
    is a [best_flights] entry. *)
Theorem C5_one_way_search (w : World) (key : string) :
  flight_params w "jfk" "lax" "2025-06-01" None None 1 None 1
  = [ ("engine", VStr "google_flights"); ("departure_id", VStr "JFK");
      ("arrival_id", VStr "LAX"); ("outbound_date", VStr "2025-06-01");
      ("adults", VInt 1); ("travel_class", VInt 1); ("hl", VStr "en");
      ("type", VStr "2") ]
  /\ (SERP_API_KEY w = Some key -> PyStr.nonempty key = true ->
      requests (handle w one_way_call)
      = [ [ ("engine", VStr "google_flights"); ("departure_id", VStr "JFK");
            ("arrival_id", VStr "LAX"); ("outbound_date", VStr "2025-06-01");
            ("adults", VInt 1); ("travel_class", VInt 1); ("hl", VStr "en");
            ("type", VStr "2"); ("api_key", VStr key) ] ]
      /\ (forall d a dd rd an tc mp mr p tier payload,
           assoc (travel_class_key tc) TRAVEL_CLASS_MAP = Some tier ->
           get_dict w (flight_request w key d a dd rd an tier mp p)
           = Ret payload ->
           has_key "error" payload = false ->
           has_key "best_flights" payload = false
           \/ assoc "best_flights" payload = Some (VList []) ->
           outcome (google_flights w d a dd rd an tc mp mr p)
           = Ret [("message", VStr "No flights found.")])
      /\ (forall d a dd rd an tc mp mr p tier payload e,
           assoc (travel_class_key tc) TRAVEL_CLASS_MAP = Some tier ->
           get_dict w (flight_request w key d a dd rd an tier mp p)
           = Ret payload ->
           assoc "error" payload = Some e ->
           outcome (google_flights w d a dd rd an tc mp mr p)
           = Ret [("error", VStr ("SerpAPI error: " ++ py_str w e))])).
Proof.
  split; [reflexivity|]. intros K N. split; [|split].
  - unfold one_way_call. cbn [handle]. rewrite flights_requests, K, N.
    reflexivity.
  - intros d a dd rd an tc mp mr p tier payload T G E B.
    unfold outcome, run, run_under.
    rewrite (google_flights_run w d a dd rd an tc mp mr p [] tier key T K N).
    cbn [fst]. rewrite (search_result_payload _ _ _ G E).
    now rewrite payload_without_flights.
  - intros d a dd rd an tc mp mr p tier payload e T G E.
    unfold outcome, run, run_under.
    rewrite (google_flights_run w d a dd rd an tc mp mr p [] tier key T K N).
    cbn [fst]. unfold search_result, flight_reply. rewrite G, E.
    reflexivity.
Qed.

Lemma C5_one_way_search_witness :
  let w := world_of env_with_key (Ret no_results) in
  SERP_API_KEY w = Some "secret"
  /\ PyStr.nonempty "secret" = true
  /\ assoc (travel_class_key (Some "Business-Class")) TRAVEL_CLASS_MAP = Some 3%Z
  /\ has_key "error" no_results = false
  /\ has_key "best_flights" no_results = false
  /\ outcome (google_flights w "jfk" "lax" "2025-06-01" None None
                (Some "Business-Class") None 5 (Some 2%Z))
     = Ret [("message", VStr "No flights found.")].
Proof.
  intros w.
  destruct (proj2 (C5_one_way_search w "secret") eq_refl eq_refl)
    as (_ & H & _).
  do 5 (split; [reflexivity|]).
  exact (H "jfk" "lax" "2025-06-01" None None (Some "Business-Class") None
           5%Z (Some 2%Z) 3%Z no_results eq_refl eq_refl eq_refl
           (or_introl eq_refl)).
Defined.

(** ** Travel classes *)

Lemma tier_range (k : string) (tier : Z) :
  assoc k TRAVEL_CLASS_MAP = Some tier -> (1 <= tier <= 4)%Z.
Proof.
  unfold TRAVEL_CLASS_MAP. simpl.
  repeat match goal with
    | |- context [if ?b then _ else _] => destruct b
    end;
    intros [= <-]; lia.
Qed.

Lemma flight_params_travel_class (w : World) d a dd rd an tier mp p :
  assoc "travel_class" (flight_params w d a dd rd an tier mp p)
  = Some (VInt tier).
Proof.
  unfold flight_params.
  destruct rd as [r|]; [destruct (PyStr.nonempty r)|];
    (destruct mp as [m|]; [destruct (negb (m =? 0)%Z)|]);
    (destruct an as [n|]; [destruct (PyStr.nonempty n)|]);
    rewrite ?assoc_set_other by reflexivity; reflexivity.
Qed.

Lemma alias_resolves (s : string) :
  matches_alias s = true ->
  has_key (travel_class_key (Some s)) TRAVEL_CLASS_MAP = true.
Proof.
  unfold matches_alias, travel_class_key. intros H.
  destruct (PyStr.nonempty s); [|reflexivity].
  fold (fold_alias s). remember (fold_alias s) as f eqn:F. clear F.
  apply existsb_exists in H as (alias & I & E).
  apply String.eqb_eq in E. subst f.
  simpl in I.
  repeat (destruct I as [<- | I]; [reflexivity|]).
  contradiction.
Qed.

Lemma default_class_key (tc : option string) :
  truthy_str tc = false -> travel_class_key tc = "economy".
Proof.
  unfold travel_class_key. destruct tc as [s|]; simpl; [|reflexivity].
  now intros ->.
Qed.

(** C7 (as stated, refuted).  The claim has every input that matches no
    alias rejected; the empty string matches none, and the handler takes
    it for the default class and goes on. *)
Lemma C7_counterexample :
  ~ (forall (w : World) d a dd rd an (s : string) mp mr p,
       matches_alias s = false ->
       outcome (google_flights w d a dd rd an (Some s) mp mr p)
       = Ret (invalid_travel_class (Some s))).
Proof.
  intros H.
  specialize (H (world_of env_with_key (Ret no_results))
                "jfk" "lax" "2025-06-01" None None "" None 5%Z (Some 1%Z)
                eq_refl).
  vm_compute in H. discriminate H.
Qed.

(** C7 (amended).  The handler lowers the input, reads hyphens as
    underscores and strips surrounding white space; an absent or empty
    input stands for "economy".  If the result is an alias of the table
    (as it is for every input that matches an alias up to case and
    hyphen/underscore), the class is resolved to a tier between 1 and 4,
    which is the [travel_class] entry of the parameter map and of the
    request sent.  Otherwise the handler returns the error that quotes the
    input and lists the aliases, and sends nothing. *)
Theorem C7_travel_class (w : World) d a dd rd an (tc : option string) mp mr p :
  (forall s, tc = Some s -> matches_alias s = true ->
             has_key (travel_class_key tc) TRAVEL_CLASS_MAP = true)
  /\ (truthy_str tc = false ->
      assoc (travel_class_key tc) TRAVEL_CLASS_MAP = Some 1%Z)
  /\ (forall tier,
         assoc (travel_class_key tc) TRAVEL_CLASS_MAP = Some tier ->
         (1 <= tier <= 4)%Z
         /\ assoc "travel_class"
              (flight_params w d a dd rd an tier mp (passenger_count p))
            = Some (VInt tier)
         /\ forall key,
              SERP_API_KEY w = Some key -> PyStr.nonempty key = true ->
              exists req,
                requests (google_flights w d a dd rd an tc mp mr p) = [req]
                /\ assoc "travel_class" req = Some (VInt tier))
  /\ (assoc (travel_class_key tc) TRAVEL_CLASS_MAP = None ->
      run (google_flights w d a dd rd an tc mp mr p)
      = (Ret (invalid_travel_class tc), [])
      /\ exists s,
           tc = Some s
           /\ invalid_travel_class tc
              = [("error",
                  VStr ("Invalid travel_class '" ++ s
                        ++ "'. Must be one of ['economy', 'eco', 'coach', 'premium', 'premium economy', 'premium_economy', 'business', 'business class', 'business_class', 'first', 'first class', 'first_class', 'luxury']"))]).
Proof.
  split; [|split; [|split]].
  - intros s -> M. now apply alias_resolves.
  - intros F. now rewrite (default_class_key tc F).
  - intros tier T. split; [exact (tier_range _ _ T)|].
    split; [apply flight_params_travel_class|].
    intros key K N. rewrite flights_requests, T, K, N.
    eexists. split; [reflexivity|]. unfold flight_request.
    rewrite assoc_set_other by reflexivity. apply flight_params_travel_class.
  - intros T. split.
    + unfold run, run_under. now rewrite google_flights_invalid.
    + destruct tc as [s|]; [|discriminate T].
      exists s. split; reflexivity.
Qed.

Lemma C7_travel_class_witness :
  let w := world_of env_with_key (Ret no_results) in
  matches_alias "First-Class" = true
  /\ has_key (travel_class_key (Some "First-Class")) TRAVEL_CLASS_MAP = true
  /\ assoc (travel_class_key (Some "First-Class")) TRAVEL_CLASS_MAP = Some 4%Z
  /\ (exists req,
        requests (google_flights w "jfk" "lax" "2025-06-01" None None
                    (Some "First-Class") None 5 None) = [req]
        /\ assoc "travel_class" req = Some (VInt 4))
  /\ assoc (travel_class_key (Some "cattle")) TRAVEL_CLASS_MAP = None
  /\ run (google_flights w "jfk" "lax" "2025-06-01" None None
            (Some "cattle") None 5 None)
     = (Ret (invalid_travel_class (Some "cattle")), []).
Proof.
  intros w.
  destruct (C7_travel_class w "jfk" "lax" "2025-06-01" None None
              (Some "First-Class") None 5%Z None) as (H1 & _ & H3 & _).
  destruct (C7_travel_class w "jfk" "lax" "2025-06-01" None None
              (Some "cattle") None 5%Z None) as (_ & _ & _ & H4).
  split; [reflexivity|].
  split; [exact (H1 "First-Class" eq_refl eq_refl)|].
  split; [reflexivity|].
  destruct (H3 4%Z eq_refl) as (_ & _ & H3').
  split; [exact (H3' "secret" eq_refl eq_refl)|].
  split; [reflexivity|].
  exact (proj1 (H4 eq_refl)).
Defined.

(** ** The flight result parser *)

Lemma parse_group_skipped (w : World) (g : value) :
  parse_group w g = Ret None -> has_legs g = false.
Proof.
  unfold parse_group, has_legs, py_get, AttributeError.
  destruct g; simpl; try discriminate.
  destruct (truthy (get d "flights" (VList []))); simpl; [|reflexivity].
  destruct (flatten_group w _ _); discriminate.
Qed.

Lemma parse_group_kept (w : World) (g : value) (r : dict) :
  parse_group w g = Ret (Some r) -> has_legs g = true.
Proof.
  unfold parse_group, has_legs, py_get, AttributeError.
  destruct g; simpl; try discriminate.
  destruct (truthy (get d "flights" (VList []))); simpl;
    [reflexivity | discriminate].
Qed.

(** The loop appends, in the order of the input, the record of each group
    that has legs. *)
Lemma parse_loop_spec (w : World) (items : list value) :
  Forall (fun g => exists o, parse_group w g = Ret o) items ->
  forall parsed_flights,
  exists recs,
    parse_loop w items parsed_flights = Ret (parsed_flights ++ recs)%list
    /\ Forall2 (fun g r => parse_group w g = Ret (Some r))
         (filter has_legs items) recs.
Proof.
  induction 1 as [|g items [o Hg] _ IH]; intros acc.
  - exists []. simpl. rewrite app_nil_r. auto.
  - simpl. rewrite Hg. simpl. destruct o as [r|].
    + destruct (IH (acc ++ [r])%list) as (recs & E & F).
      exists (r :: recs). rewrite E, <- app_assoc. simpl.
      rewrite (parse_group_kept w g r Hg). auto.
    + destruct (IH acc) as (recs & E & F).
      exists recs. rewrite (parse_group_skipped w g Hg). auto.
Qed.

Lemma filter_all {A : Type} (f : A -> bool) (l : list A) :
  forallb f l = true -> filter f l = l.
Proof.
  induction l as [|x l IH]; simpl; [reflexivity|].
  intros H. apply andb_true_iff in H as [-> Hl]. now rewrite IH.
Qed.

Lemma forallb_firstn {A : Type} (f : A -> bool) (n : nat) (l : list A) :
  forallb f l = true -> forallb f (firstn n l) = true.
Proof.
  revert n. induction l as [|x l IH]; intros [|n]; simpl; auto.
  intros H. apply andb_true_iff in H as [-> Hl]. simpl. auto.
Qed.

Lemma flight_reply_records (w : World) (data : dict) (N : Z)
    (groups : list value) :
  assoc "error" data = None ->
  assoc "best_flights" data = Some (VList groups) ->
  let kept := firstn (slice_bound (List.length groups) N) groups in
  Forall (fun g => exists o, parse_group w g = Ret o) kept ->
  exists recs,
    records_of (flight_reply w data N) = map VDict recs
    /\ Forall2 (fun g r => parse_group w g = Ret (Some r))
         (filter has_legs kept) recs.
Proof.
  intros E B kept W. unfold flight_reply, get. rewrite E, B.
  destruct groups as [|g groups].
  - exists []. simpl. split; [reflexivity|].
    subst kept. rewrite firstn_nil. constructor.
  - cbn [truthy negb slice_to res_bind]. fold kept.
    unfold parse_flights. cbn [iterate res_bind].
    destruct (parse_loop_spec w kept W []) as (recs & P & F).
    rewrite P. exists recs. split; [reflexivity | exact F].
Qed.

(** C4 (as stated, refuted).  The claim has groups without legs not count
    toward the cap; the handler cuts the list to its first N groups before
    parsing, so with a cap of 1 and a first group without legs nothing is
    returned although the second group has a leg. *)
Lemma C4_counterexample :
  ~ (forall (w : World) (key : string) d a dd rd an tc mp (N : Z) p tier
            (payload : dict) (groups : list value),
       SERP_API_KEY w = Some key -> PyStr.nonempty key = true ->
       assoc (travel_class_key tc) TRAVEL_CLASS_MAP = Some tier ->
       get_dict w (flight_request w key d a dd rd an tier mp p) = Ret payload ->
       assoc "error" payload = None ->
       assoc "best_flights" payload = Some (VList groups) ->
       Forall (fun g => exists o, parse_group w g = Ret o) groups ->
       (0 <= N)%Z ->
       exists out,
         outcome (google_flights w d a dd rd an tc mp N p) = Ret out
         /\ List.length (records_of out)
            = Nat.min (List.length (filter has_legs groups)) (Z.to_nat N)).
Proof.
  intros H.
  destruct (H (world_of env_with_key (Ret flights_body)) "secret"
              "jfk" "lax" "2025-06-01" None None None None 1%Z None 1%Z
              flights_body two_groups eq_refl eq_refl eq_refl eq_refl
              eq_refl eq_refl) as (out & E & L).
  - repeat constructor; eexists; reflexivity.
  - lia.
  - vm_compute in E. injection E as <-. vm_compute in L. discriminate L.
Qed.

(** C4 (amended).  The handler first cuts the list of groups to
    [best_flights[:N]] and then parses what is left: provided each of
    these groups can be flattened, the records returned are, in the order
    of the input, those of the groups among them that have at least one
    leg.  So when every group has a leg and N is not negative there are
    exactly min(K, N) records; a group without legs among the first N is
    skipped, and it does count toward the cap. *)
Theorem C4_flight_parsing (w : World) (key : string) d a dd rd an tc mp (N : Z)
    p tier (payload : dict) (groups : list value) :
  SERP_API_KEY w = Some key -> PyStr.nonempty key = true ->
  assoc (travel_class_key tc) TRAVEL_CLASS_MAP = Some tier ->
  get_dict w (flight_request w key d a dd rd an tier mp p) = Ret payload ->
  assoc "error" payload = None ->
  assoc "best_flights" payload = Some (VList groups) ->
  let kept := firstn (slice_bound (List.length groups) N) groups in
  Forall (fun g => exists o, parse_group w g = Ret o) kept ->
  exists out recs,
    outcome (google_flights w d a dd rd an tc mp N p) = Ret out
    /\ records_of out = map VDict recs
    /\ Forall2 (fun g r => parse_group w g = Ret (Some r))
         (filter has_legs kept) recs
    /\ ((0 <= N)%Z -> forallb has_legs groups = true ->
        List.length recs = Nat.min (List.length groups) (Z.to_nat N)).
Proof.
  intros K Nk T G E B kept W.
  unfold outcome, run, run_under.
  rewrite (google_flights_run w d a dd rd an tc mp N p [] tier key T K Nk).
  cbn [fst].
  assert (S : search_result w (flight_request w key d a dd rd an tier mp p)
              = payload).
  { apply search_result_payload; [exact G|]. unfold has_key. now rewrite E. }
  rewrite S.
  destruct (flight_reply_records w payload N groups E B W) as (recs & R & F).
  exists (flight_reply w payload N), recs.
  split; [reflexivity|]. split; [exact R|]. split; [exact F|].
  intros Npos L.
  fold kept in F. rewrite (filter_all has_legs kept) in F
    by (apply forallb_firstn; exact L).
  transitivity (List.length kept); [symmetry; exact (Forall2_length F)|].
  subst kept. rewrite length_firstn. unfold slice_bound.
  destruct (N <? 0)%Z eqn:Neg; [apply Z.ltb_lt in Neg; lia|].
  apply Nat.min_comm.
Qed.

Lemma C4_flight_parsing_witness :
  let w := world_of env_with_key (Ret flights_body) in
  SERP_API_KEY w = Some "secret"
  /\ PyStr.nonempty "secret" = true
  /\ assoc (travel_class_key None) TRAVEL_CLASS_MAP = Some 1%Z
  /\ assoc "error" flights_body = None
  /\ assoc "best_flights" flights_body = Some (VList two_groups)
  /\ exists out recs,
       outcome (google_flights w "jfk" "lax" "2025-06-01" None None None
                  None 2 None) = Ret out
       /\ records_of out = map VDict recs
       /\ Forall2 (fun g r => parse_group w g = Ret (Some r))
            (filter has_legs two_groups) recs.
Proof.
  intros w.
  assert (W : Forall (fun g => exists o, parse_group w g = Ret o)
                (firstn (slice_bound (List.length two_groups) 2) two_groups)).
  { repeat constructor; eexists; reflexivity. }
  destruct (C4_flight_parsing w "secret" "jfk" "lax" "2025-06-01" None None
              None None 2%Z None 1%Z flights_body two_groups
              eq_refl eq_refl eq_refl eq_refl eq_refl eq_refl W)
    as (out & recs & E & R & F & _).
  do 5 (split; [reflexivity|]).
  exists out, recs. split; [exact E|]. split; [exact R | exact F].
Defined.

(** ** Failures are returned *)

(** The envelope a finance or debug handler builds around an error of the
    gateway, and around a payload. *)
Lemma finance_outcome (w : World) (c : tool_call) (p : dict) :
  is_flight_call c = false ->
  requests (handle w c) = [p] ->
  outcome (handle w c)
  = Ret (reply (search_result w p)
           (fun e => create_error_response w (query_of c)
                       (error_prefix c ++ py_str w e) (tool_tag c))
           (fun data =>
              match c with
              | Call_debug_api_response q engine _ _ =>
                  [ ("tool", VStr "debug"); ("query", VStr q);
                    ("engine", VStr engine);
                    ("timestamp", VStr (now_isoformat w));
                    ("success", VBool true); ("api_response", VDict data) ]
              | _ => create_success_response w (query_of c) data (tool_tag c)
              end)).
Proof.
  intros F. destruct c; try discriminate; cbn [handle];
    run_finance; intros [= <-]; reflexivity.
Qed.

Lemma flights_request_inv (w : World) d a dd rd an tc mp mr p req :
  requests (google_flights w d a dd rd an tc mp mr p) = [req] ->
  exists tier key,
    assoc (travel_class_key tc) TRAVEL_CLASS_MAP = Some tier
    /\ SERP_API_KEY w = Some key /\ PyStr.nonempty key = true
    /\ req = flight_request w key d a dd rd an tier mp p.
Proof.
  rewrite flights_requests.
  destruct (assoc (travel_class_key tc) TRAVEL_CLASS_MAP) as [tier|];
    [|discriminate].
  destruct (SERP_API_KEY w) as [key|]; [|discriminate].
  destruct (PyStr.nonempty key) eqn:N; [|discriminate].
  intros [= <-]. exists tier, key. auto.
Qed.

Lemma flights_outcome (w : World) d a dd rd an tc mp mr p req :
  requests (google_flights w d a dd rd an tc mp mr p) = [req] ->
  outcome (google_flights w d a dd rd an tc mp mr p)
  = Ret (flight_reply w (search_result w req) mr).
Proof.
  intros R. destruct (flights_request_inv _ _ _ _ _ _ _ _ _ _ _ R)
    as (tier & key & T & K & N & ->).
  unfold outcome, run, run_under.
  now rewrite (google_flights_run w d a dd rd an tc mp mr p [] tier key T K N).
Qed.











(** * Further properties of the code *)

(** ** The gateway *)

(** X1.  [search_google] sends exactly one request, whatever happens to
    it.  What the client call raises from outside [Exception] is not
    caught by the [except Exception] clause: the gateway raises it.  In
    every other case the gateway returns, and its result is the payload
    itself when the payload has no [error] entry; otherwise it is a
    dictionary with the single entry [error] (the in-band error, or the
    text of the exception), so nothing else of the payload survives an
    error. *)
Theorem search_google_contract (w : World) (i : interrupts) (params : dict) :
  requests_under i (search_google w params) = [params]
  /\ (forall b,
         i params = Some b ->
         outcome_under i (search_google w params) = Raise (Outside b))
  /\ (i params = None ->
      exists data,
        outcome_under i (search_google w params) = Ret data
        /\ (has_key "error" data = true -> keys data = ["error"])
        /\ (forall payload,
               get_dict w params = Ret payload ->
               has_key "error" payload = false -> data = payload)
        /\ (forall payload e,
               get_dict w params = Ret payload ->
               assoc "error" payload = Some e -> data = [("error", e)])
        /\ (forall ex,
               get_dict w params = Raise ex ->
               data = [("error", VStr (str_exn ex))])).
Proof.
  unfold requests_under, outcome_under, run_under.
  rewrite search_google_under. cbn [fst snd app].
  split; [reflexivity|]. split.
  - intros b ->. reflexivity.
  - intros ->. exists (search_result w params).
    split; [reflexivity|]. unfold search_result, has_key.
    repeat split.
    + destruct (get_dict w params) as [results|ex]; [|reflexivity].
      destruct (assoc "error" results) eqn:E; [reflexivity|].
      rewrite E. discriminate.
    + intros payload -> E. destruct (assoc "error" payload);
        [discriminate | reflexivity].
    + intros payload e -> E. now rewrite E.
    + intros ex ->. reflexivity.
Qed.

Lemma search_google_contract_witness :
  let body := [("error", VStr "Invalid API key"); ("search_metadata", VDict [])] in
  let w := world_of env_with_key (Ret body) in
  get_dict w [] = Ret body
  /\ assoc "error" body = Some (VStr "Invalid API key")
  /\ outcome_under never (search_google w [])
     = Ret [("error", VStr "Invalid API key")]
  /\ outcome_under interrupted (search_google w [])
     = Raise (Outside KeyboardInterrupt).
Proof.
  intros body w.
  destruct (search_google_contract w never []) as (_ & _ & Q).
  destruct (Q eq_refl) as (data & E & _ & _ & H & _).
  do 2 (split; [reflexivity|]).
  split.
  - rewrite E. f_equal. exact (H body (VStr "Invalid API key") eq_refl eq_refl).
  - exact (proj1 (proj2 (search_google_contract w interrupted []))
             KeyboardInterrupt eq_refl).
Defined.

(** ** What the finance handlers answer *)

(** X2.  When the gateway hands a payload back, a finance or debug
    handler embeds it unchanged under [api_response], with [success] true,
    no [error] entry, its own tool tag, the time of the call, and the
    query exactly as the caller gave it. *)
Theorem finance_success_envelope (w : World) (c : tool_call) (p payload : dict) :
  is_flight_call c = false ->
  requests (handle w c) = [p] ->
  get_dict w p = Ret payload ->
  has_key "error" payload = false ->
  exists out,
    outcome (handle w c) = Ret out
    /\ assoc "api_response" out = Some (VDict payload)
    /\ assoc "success" out = Some (VBool true)
    /\ assoc "error" out = None
    /\ assoc "tool" out = Some (VStr (tool_tag c))
    /\ assoc "query" out = Some (VStr (query_of c))
    /\ assoc "timestamp" out = Some (VStr (now_isoformat w)).
Proof.
  intros F R G E. rewrite (finance_outcome w c p F R).
  rewrite (search_result_payload w p payload G E).
  unfold reply. unfold has_key in E.
  destruct (assoc "error" payload); [discriminate|].
  eexists. split; [reflexivity|].
  destruct c; try discriminate; repeat split.
Qed.

Lemma finance_success_envelope_witness :
  let w := world_of env_with_key (Ret no_results) in
  let c := Call_get_stock_quote "NASDAQ:AAPL" None None in
  is_flight_call c = false
  /\ exists p out,
       requests (handle w c) = [p]
       /\ outcome (handle w c) = Ret out
       /\ assoc "api_response" out = Some (VDict no_results)
       /\ assoc "query" out = Some (VStr "NASDAQ:AAPL").
Proof.
  intros w c. split; [reflexivity|].
  eexists. 
  destruct (finance_success_envelope w c _ no_results eq_refl eq_refl
              eq_refl eq_refl) as (out & E & A & _ & _ & _ & Q & _).
  exists out. split; [reflexivity|]. split; [exact E|].
  split; [exact A | exact Q].
Defined.

(** X3.  An error of the gateway is reported with the handler's prefix:
    "SerpAPI error: " by the flight search, "Debug API Error: " by the
    debug tool and "API Error: " by the other handlers, followed by the
    in-band error of the payload or by the text of the exception the
    client raised.  In particular an exception of the client never reaches
    the handler's own [except] clause. *)
Theorem gateway_error_reported (w : World) (c : tool_call) (p : dict) :
  requests (handle w c) = [p] ->
  exists out,
    outcome (handle w c) = Ret out
    /\ (forall payload e,
           get_dict w p = Ret payload -> assoc "error" payload = Some e ->
           error_message out = Some (VStr (error_prefix c ++ py_str w e)))
    /\ (forall ex,
           get_dict w p = Raise ex ->
           error_message out = Some (VStr (error_prefix c ++ str_exn ex))).
Proof.
  intros R. destruct (is_flight_call c) eqn:F.
  - destruct c; try discriminate. cbn [handle] in *.
    rewrite (flights_outcome _ _ _ _ _ _ _ _ _ _ _ R).
    eexists. split; [reflexivity|]. unfold search_result, flight_reply.
    split.
    + intros payload e -> E. rewrite E. reflexivity.
    + intros ex ->. reflexivity.
  - rewrite (finance_outcome w c p F R).
    eexists. split; [reflexivity|]. unfold search_result, reply.
    split.
    + intros payload e -> E. rewrite E. reflexivity.
    + intros ex ->. reflexivity.
Qed.

Lemma gateway_error_reported_witness :
  let boom := Exception "ConnectionError" "connection refused" in
  let w := world_of env_with_key (Raise boom) in
  exists p out,
    requests (handle w one_way_call) = [p]
    /\ get_dict w p = Raise boom
    /\ outcome (handle w one_way_call) = Ret out
    /\ error_message out = Some (VStr "SerpAPI error: connection refused").
Proof.
  intros boom w. eexists.
  destruct (gateway_error_reported w one_way_call _ eq_refl)
    as (out & E & _ & H).
  exists out. split; [reflexivity|]. split; [reflexivity|].
  split; [exact E | exact (H boom eq_refl)].
Defined.

(** X20.  A handler reaches the network exactly when its arguments pass
    its checks and the key it reads is present and not empty; it then
    sends exactly one request, and otherwise none. *)
Theorem one_request_or_none (w : World) (c : tool_call) :
  (passes_validation c && truthy_str (key_read w c) = true ->
   exists p, requests (handle w c) = [p])
  /\ (passes_validation c && truthy_str (key_read w c) = false ->
      requests (handle w c) = []).
Proof.
  split; intros H.
  - apply andb_true_iff in H as [V K]. now apply request_sent.
  - apply nothing_sent. apply andb_false_iff in H. exact H.
Qed.

Lemma one_request_or_none_witness :
  let w := world_of env_with_key (Ret no_results) in
  let good := Call_compare_stocks "AAPL,MSFT" "1y" None None in
  let bad := Call_compare_stocks "AAPL,MSFT" "2y" None None in
  passes_validation good && truthy_str (key_read w good) = true
  /\ (exists p, requests (handle w good) = [p])
  /\ passes_validation bad && truthy_str (key_read w bad) = false
  /\ requests (handle w bad) = [].
Proof.
  intros w good bad.
  split; [reflexivity|].
  split; [exact (proj1 (one_request_or_none w good) eq_refl)|].
  split; [reflexivity|].
  exact (proj2 (one_request_or_none w bad) eq_refl).
Defined.

(** X15.  Arguments that fail a handler's checks give an error result and
    no request in every world, whether or not a key is configured: the
    checks come before the key is looked up, and the error is not the one
    of a missing key.  For the finance handlers the result is an error
    envelope with [success] false. *)
Theorem validation_comes_first (w : World) (c : tool_call) :
  passes_validation c = false ->
  requests (handle w c) = []
  /\ exists out msg,
       outcome (handle w c) = Ret out
       /\ error_message out = Some (VStr msg)
       /\ msg <> "SERP_API_KEY not configured"
       /\ msg <> "SERP_API_KEY environment variable is required"
       /\ (is_flight_call c = false ->
           assoc "success" out = Some (VBool false)
           /\ assoc "tool" out = Some (VStr (tool_tag c))).
Proof.
  intros V. split; [apply nothing_sent; now left|].
  destruct c; cbn [handle].
  1: { cbn [passes_validation] in V. unfold has_key in V.
       destruct (assoc (travel_class_key travel_class) TRAVEL_CLASS_MAP)
         eqn:T; [discriminate|].
       unfold outcome, run, run_under. rewrite google_flights_invalid by exact T.
       do 2 eexists. split; [reflexivity|]. split; [reflexivity|].
       simpl. repeat split; try discriminate. }
  all: run_finance; try bool_contra;
    do 2 eexists; (split; [reflexivity|]); (split; [reflexivity|]);
    simpl; repeat split; discriminate.
Qed.

Lemma validation_comes_first_witness :
  let w := world_of env_empty (Ret no_results) in
  let c := Call_get_market_data "Gainers" None None in
  passes_validation c = false
  /\ requests (handle w c) = []
  /\ exists out,
       outcome (handle w c) = Ret out
       /\ error_message out
          = Some (VStr "Invalid trend 'Gainers'. Valid trends: indexes, most-active, gainers, losers, climate-leaders, cryptocurrencies, currencies").
Proof.
  intros w c.
  destruct (validation_comes_first w c eq_refl) as (R & out & msg & E & M & _).
  split; [reflexivity|]. split; [exact R|].
  exists out. split; [exact E|]. rewrite M.
  vm_compute in E. injection E as <-. vm_compute in M. symmetry. exact M.
Defined.

(** ** More on the flight search *)

Lemma parse_loop_raise (w : World) (ok : list value) (g : value)
    (rest : list value) (e : exn) :
  Forall (fun g => exists o, parse_group w g = Ret o) ok ->
  parse_group w g = Raise e ->
  forall parsed_flights,
    parse_loop w (ok ++ g :: rest) parsed_flights = Raise e.
Proof.
  intros Hok Hg. induction Hok as [|x ok [o Hx] _ IH]; intros acc; simpl.
  - now rewrite Hg.
  - rewrite Hx. simpl. destruct o; apply IH.
Qed.

(** X4.  The flight search returns records for all of the groups it
    keeps or for none: if one of the first N groups cannot be flattened,
    the exception of the first such group is caught by the handler, which
    answers with the error "Error searching flights: ..." and no record,
    also for the groups before it that were parsed. *)
Theorem flights_all_or_nothing (w : World) d a dd rd an tc mp (N : Z) p
    (req payload : dict) (groups ok rest : list value) (g : value) (e : exn) :
  requests (google_flights w d a dd rd an tc mp N p) = [req] ->
  get_dict w req = Ret payload ->
  assoc "error" payload = None ->
  assoc "best_flights" payload = Some (VList groups) ->
  firstn (slice_bound (List.length groups) N) groups = (ok ++ g :: rest)%list ->
  Forall (fun g => exists o, parse_group w g = Ret o) ok ->
  parse_group w g = Raise e ->
  outcome (google_flights w d a dd rd an tc mp N p)
  = Ret [("error", VStr ("Error searching flights: " ++ str_exn e))].
Proof.
  intros R G E B Cut Hok Hg. rewrite (flights_outcome _ _ _ _ _ _ _ _ _ _ _ R).
  rewrite (search_result_payload w req payload G)
    by (unfold has_key; now rewrite E).
  unfold flight_reply, get. rewrite E, B.
  destruct groups as [|g0 groups].
  - simpl in Cut. rewrite firstn_nil in Cut. destruct ok; discriminate.
  - cbn [truthy negb slice_to res_bind]. rewrite Cut.
    unfold parse_flights. cbn [iterate res_bind].
    now rewrite (parse_loop_raise w ok g rest e Hok Hg).
Qed.

Lemma flights_all_or_nothing_witness :
  let w := world_of env_with_key (Ret broken_body) in
  exists req good bad e,
    broken_groups = [good; bad]
    /\ requests (handle w one_way_call) = [req]
    /\ (exists o, parse_group w good = Ret o)
    /\ parse_group w bad = Raise e
    /\ outcome (handle w one_way_call)
       = Ret [("error",
               VStr "Error searching flights: 'str' object has no attribute 'get'")].
Proof.
  intros w. eexists. do 3 eexists.
  split; [reflexivity|]. split; [reflexivity|].
  split; [eexists; reflexivity|]. split; [reflexivity|].
  refine (flights_all_or_nothing w "jfk" "lax" "2025-06-01" None None
            default_travel_class None default_max_results default_passengers
            _ broken_body broken_groups [_] [] _ _
            eq_refl eq_refl eq_refl eq_refl eq_refl _ eq_refl).
  repeat constructor. eexists. reflexivity.
Defined.

Lemma parse_loop_length (w : World) (items : list value) :
  forall parsed_flights out,
    parse_loop w items parsed_flights = Ret out ->
    (List.length out <= List.length parsed_flights + List.length items)%nat.
Proof.
  induction items as [|g items IH]; intros acc out; simpl.
  - intros [= <-]. lia.
  - destruct (parse_group w g) as [[r|]|e]; simpl; try discriminate.
    + intros H. apply IH in H. rewrite length_app in H. simpl in H. lia.
    + intros H. apply IH in H. lia.
Qed.

Lemma chars_length (s : string) : List.length (chars s) = String.length s.
Proof. induction s; simpl; congruence. Qed.

Lemma take_length (n : nat) (s : string) :
  (String.length (PyStr.take n s) <= n)%nat.
Proof.
  revert s. induction n as [|n IH]; intros [|c s]; simpl; try lia.
  specialize (IH s). lia.
Qed.

Lemma flight_reply_bounded (w : World) (data : dict) (N : Z) :
  (0 <= N)%Z ->
  (List.length (records_of (flight_reply w data N)) <= Z.to_nat N)%nat.
Proof.
  intros Npos. unfold flight_reply.
  destruct (assoc "error" data); [simpl; lia|]. cbv zeta.
  destruct (negb _); [simpl; lia|].
  destruct (res_bind _ _) as [recs|e] eqn:P; [|simpl; lia].
  unfold records_of. cbn [assoc String.eqb Ascii.eqb Bool.eqb].
  simpl assoc. rewrite length_map.
  assert (B : forall len, (slice_bound len N <= Z.to_nat N)%nat).
  { intros len. unfold slice_bound.
    destruct (N <? 0)%Z eqn:Neg; [apply Z.ltb_lt in Neg; lia | lia]. }
  unfold slice_to in P.
  destruct (get data "best_flights" (VList [])) as [| | | |s|l|dd];
    try discriminate P; cbn [res_bind] in P; unfold parse_flights in P;
    cbn [iterate res_bind] in P; apply parse_loop_length in P; simpl in P.
  - rewrite chars_length in P.
    eapply Nat.le_trans; [exact P|].
    eapply Nat.le_trans; [apply take_length | apply B].
  - rewrite length_firstn in P.
    eapply Nat.le_trans; [exact P|].
    eapply Nat.le_trans; [apply Nat.le_min_l | apply B].
Qed.

(** X5.  Whatever the gateway answers, a flight search with a cap N that
    is not negative never returns more than N records. *)
Theorem flights_never_exceed_cap (w : World) d a dd rd an tc mp (N : Z) p
    (out : dict) :
  (0 <= N)%Z ->
  outcome (google_flights w d a dd rd an tc mp N p) = Ret out ->
  (List.length (records_of out) <= Z.to_nat N)%nat.
Proof.
  intros Npos. unfold outcome, run, run_under.
  destruct (assoc (travel_class_key tc) TRAVEL_CLASS_MAP) as [tier|] eqn:T.
  - destruct (truthy_str (SERP_API_KEY w)) eqn:K.
    + destruct (truthy_str_some _ K) as (key & Ek & Nk).
      rewrite (google_flights_run w d a dd rd an tc mp N p [] tier key T Ek Nk).
      cbn [fst]. intros [= <-]. now apply flight_reply_bounded.
    + rewrite (google_flights_no_key w d a dd rd an tc mp N p [] tier T K).
      cbn [fst]. intros [= <-]. simpl. lia.
  - rewrite (google_flights_invalid w d a dd rd an tc mp N p [] T).
    cbn [fst]. intros [= <-]. simpl. lia.
Qed.

Lemma flights_never_exceed_cap_witness :
  let w := world_of env_with_key (Ret flights_body) in
  exists out,
    (0 <= 2)%Z
    /\ outcome (google_flights w "jfk" "lax" "2025-06-01" None None None None
                  2 None) = Ret out
    /\ List.length (records_of out) = 1%nat
    /\ (List.length (records_of out) <= Z.to_nat 2)%nat.
Proof.
  intros w. eexists.
  assert (P : (0 <= 2)%Z) by lia.
  split; [exact P|]. split; [reflexivity|]. split; [reflexivity|].
  exact (flights_never_exceed_cap w "jfk" "lax" "2025-06-01" None None None
           None 2%Z None _ P eq_refl).
Defined.

(** ** The departure date of a record *)

Lemma split_ws_blank (s : string) :
  PyStr.str_all PyStr.char_isspace s = true -> split_ws s = [].
Proof.
  induction s as [|c s IH]; simpl; [reflexivity|].
  intros H. apply andb_true_iff in H as [-> Hs]. auto.
Qed.

Lemma split_ws_first_word (s : string) :
  PyStr.str_all PyStr.char_isspace s = false ->
  exists rest, split_ws s = first_word s :: rest.
Proof.
  unfold first_word. induction s as [|c s IH]; [discriminate|].
  cbn [PyStr.str_all PyStr.lstrip split_ws].
  destruct (PyStr.char_isspace c) eqn:C; cbn [andb]; [exact IH|].
  intros _. cbn [until_space]. rewrite C.
  destruct s as [|c' s]; [now exists []|].
  cbn [until_space].
  destruct (PyStr.char_isspace c') eqn:C'; [now eexists|].
  destruct IH as (rest & IH).
  { cbn [PyStr.str_all]. now rewrite C'. }
  rewrite IH. cbn [PyStr.lstrip]. rewrite C'.
  exists rest. cbn [until_space]. now rewrite C'.
Qed.

Lemma first_word_is_a_word (s : string) :
  PyStr.str_all PyStr.char_isspace s = false ->
  PyStr.nonempty (first_word s) = true
  /\ PyStr.str_any PyStr.char_isspace (first_word s) = false.
Proof.
  assert (U : forall t, PyStr.str_any PyStr.char_isspace (until_space t) = false).
  { induction t as [|c t IH]; [reflexivity|]. cbn [until_space].
    destruct (PyStr.char_isspace c) eqn:C; [reflexivity|].
    cbn [PyStr.str_any]. now rewrite C. }
  intros H. split; [|apply U].
  unfold first_word. induction s as [|c s IH]; [discriminate|].
  cbn [PyStr.str_all] in H. cbn [PyStr.lstrip].
  destruct (PyStr.char_isspace c) eqn:C; cbn [andb] in H; [auto|].
  cbn [until_space]. now rewrite C.
Qed.

(** Run the flattening of a group up to the choice of its date. *)
Ltac open_group L D A T :=
  unfold flatten_group; rewrite L; unfold py_get at 1 2 3;
  cbn [res_bind]; rewrite D, A; cbn [py_get res_bind]; rewrite T;
  unfold departure_date_of; cbn [truthy].

(** X17.  The [departure_date] a record is built with is the first word
    of the first leg's departure time, for every time that is a text with
    something other than white space in it: the text between the leading
    white space, if any, and the next white space or the end, so a time
    without white space is taken whole.  When the time is missing or
    empty the date is the group's own [departure_date] field, or [None]
    without one.  A time made of white space only is not taken for
    missing: it has no first word and the record cannot be built (an
    [IndexError] is raised). *)
Theorem departure_date_rule (w : World) (group leg dep arr : dict)
    (legs : value) (s : string) :
  first_item legs = Ret (VDict leg) ->
  get leg "departure_airport" (VDict []) = VDict dep ->
  get leg "arrival_airport" (VDict []) = VDict arr ->
  get dep "time" (VStr "") = VStr s ->
  (PyStr.str_all PyStr.char_isspace s = false ->
   PyStr.nonempty (first_word s) = true
   /\ PyStr.str_any PyStr.char_isspace (first_word s) = false
   /\ exists kwargs,
        flatten_group w (VDict group) legs = FlightDetails w kwargs
        /\ assoc "departure_date" kwargs = Some (VStr (first_word s))
        /\ assoc "departure_time" kwargs = Some (VStr s))
  /\ (s = "" ->
      exists kwargs,
        flatten_group w (VDict group) legs = FlightDetails w kwargs
        /\ assoc "departure_date" kwargs
           = Some (get group "departure_date" VNone))
  /\ (PyStr.nonempty s = true ->
      PyStr.str_all PyStr.char_isspace s = true ->
      flatten_group w (VDict group) legs
      = Raise (Exception "IndexError" "list index out of range")).
Proof.
  intros L D A T. split; [|split].
  - intros H. destruct (first_word_is_a_word s H) as (N & S).
    split; [exact N|]. split; [exact S|].
    destruct (split_ws_first_word s H) as (rest & W).
    assert (Hn : PyStr.nonempty s = true)
      by (destruct s; [discriminate | reflexivity]).
    open_group L D A T. rewrite Hn, W. cbn [res_bind py_get].
    eexists. split; [reflexivity|]. split; reflexivity.
  - intros E. open_group L D A T. rewrite E.
    cbn [PyStr.nonempty py_get res_bind].
    eexists. split; reflexivity.
  - intros N B. open_group L D A T.
    rewrite N, (split_ws_blank s B). reflexivity.
Qed.

Lemma departure_date_rule_witness :
  let w := world_of env_with_key (Ret no_results) in
  let group := [("departure_date", VStr "2025-05-31")] in
  let built time :=
    match flatten_group w (VDict group) (VList [VDict (leg_at (VStr time))]) with
    | Ret record => Ret (assoc "departure_date" record)
    | Raise e => Raise e
    end in
  built "2025-06-01 08:00" = Ret (Some (VStr "2025-06-01"))
  /\ built "2025-06-01" = Ret (Some (VStr "2025-06-01"))
  /\ built "  2025-06-01 08:00" = Ret (Some (VStr "2025-06-01"))
  /\ built "" = Ret (Some (VStr "2025-05-31"))
  /\ built "  " = Raise (Exception "IndexError" "list index out of range").
Proof.
  intros w group built.
  assert (R : forall time,
             PyStr.str_all PyStr.char_isspace time = false ->
             built time = Ret (Some (VStr (first_word time)))).
  { intros time H. unfold built.
    destruct (proj1 (departure_date_rule w group (leg_at (VStr time)) _ _
                       (VList [VDict (leg_at (VStr time))]) time
                       eq_refl eq_refl eq_refl eq_refl) H)
      as (_ & _ & kwargs & E & D & _).
    rewrite E. cbv beta iota delta [w world_of FlightDetails].
    now rewrite D. }
  split; [exact (R "2025-06-01 08:00" eq_refl)|].
  split; [exact (R "2025-06-01" eq_refl)|].
  split; [exact (R "  2025-06-01 08:00" eq_refl)|].
  split; reflexivity.
Defined.

(** ** More on the query normaliser *)

Lemma count_before (sep : ascii) (s : string) : count sep (before sep s) = 0%nat.
Proof.
  induction s as [|c s IH]; simpl; [reflexivity|].
  destruct (Ascii.eqb c sep) eqn:E; simpl; [reflexivity|]. now rewrite E.
Qed.

Lemma count_after (sep : ascii) (s : string) :
  count sep s = (if PyStr.contains sep s then 1 else 0)%nat + count sep (after sep s).
Proof.
  unfold PyStr.contains. induction s as [|c s IH]; simpl; [reflexivity|].
  rewrite (Ascii.eqb_sym sep c).
  destruct (Ascii.eqb c sep); simpl; [reflexivity | exact IH].
Qed.

Lemma count_append (sep : ascii) (a b : string) :
  count sep (a ++ b) = (count sep a + count sep b)%nat.
Proof. induction a as [|c a IH]; simpl; [reflexivity|]. rewrite IH. lia. Qed.

Lemma before_append (sep : ascii) (a b : string) :
  count sep a = 0%nat -> before sep (a ++ String sep b) = a.
Proof.
  induction a as [|c a IH]; simpl.
  - now rewrite Ascii.eqb_refl.
  - destruct (Ascii.eqb c sep); [discriminate|]. intros H. now rewrite IH.
Qed.

Lemma after_append (sep : ascii) (a b : string) :
  count sep a = 0%nat -> after sep (a ++ String sep b) = b.
Proof.
  induction a as [|c a IH]; simpl.
  - now rewrite Ascii.eqb_refl.
  - destruct (Ascii.eqb c sep); [discriminate|]. auto.
Qed.

Lemma before_sep_after (sep : ascii) (s : string) :
  count sep s <> 0%nat -> before sep s ++ String sep (after sep s) = s.
Proof.
  induction s as [|c s IH]; simpl; [congruence|].
  destruct (Ascii.eqb c sep) eqn:E; simpl.
  - apply Ascii.eqb_eq in E. now subst.
  - intros H. now rewrite IH.
Qed.

Lemma append_length (a b : string) :
  String.length (a ++ b) = (String.length a + String.length b)%nat.
Proof. induction a; simpl; congruence. Qed.

Lemma one_colon_parts (q : string) :
  count ":" q = 1%nat ->
  count ":" (before ":" q) = 0%nat /\ count ":" (after ":" q) = 0%nat
  /\ count ":" (swapped q) = 1%nat
  /\ before ":" (swapped q) = after ":" q
  /\ after ":" (swapped q) = before ":" q
  /\ swapped (swapped q) = q.
Proof.
  intros C.
  assert (B : count ":" (before ":" q) = 0%nat) by apply count_before.
  assert (A : count ":" (after ":" q) = 0%nat).
  { pose proof (count_after ":" q) as H. rewrite contains_count, C in H.
    simpl in H. lia. }
  assert (Sb : before ":" (swapped q) = after ":" q)
    by (apply before_append; exact A).
  assert (Sa : after ":" (swapped q) = before ":" q)
    by (apply after_append; exact A).
  repeat split; try assumption.
  - unfold swapped. rewrite !count_append, A, B. reflexivity.
  - unfold swapped at 1. rewrite Sb, Sa. apply before_sep_after. lia.
Qed.

Lemma code_swap_one_colon (q : string) :
  code_swap q = true -> count ":" q = 1%nat.
Proof.
  unfold code_swap. intros H.
  repeat (apply andb_true_iff in H as [H _]). now apply Nat.eqb_eq.
Qed.

(** X6.  A second pass of the normaliser undoes the first exactly when
    the query has one colon and both of its parts pass the test (a capital
    letter, no small letter, no digit): then two passes give the query
    back.  For every other query a second pass changes nothing.  In all
    cases three passes equal one. *)
Theorem normalize_twice (q : string) :
  (code_swap q = true -> code_swap (swapped q) = true ->
   normalize_query (normalize_query q) = q)
  /\ (code_swap q && code_swap (swapped q) = false ->
      normalize_query (normalize_query q) = normalize_query q)
  /\ normalize_query (normalize_query (normalize_query q)) = normalize_query q.
Proof.
  assert (Two : code_swap q = true -> code_swap (swapped q) = true ->
                normalize_query (normalize_query q) = q).
  { intros S1 S2. rewrite (normalize_query_spec q), S1.
    rewrite normalize_query_spec, S2.
    apply one_colon_parts. now apply code_swap_one_colon. }
  assert (One : code_swap q && code_swap (swapped q) = false ->
                normalize_query (normalize_query q) = normalize_query q).
  { intros H. rewrite (normalize_query_spec q).
    destruct (code_swap q) eqn:S1; simpl in H.
    - now rewrite normalize_query_spec, H.
    - now rewrite normalize_query_spec, S1. }
  split; [exact Two|]. split; [exact One|].
  destruct (code_swap q && code_swap (swapped q)) eqn:B.
  - apply andb_true_iff in B as [S1 S2]. now rewrite (Two S1 S2).
  - now rewrite (One eq_refl), (One eq_refl).
Qed.

Lemma normalize_twice_witness :
  code_swap "NYSE:IBM" = true
  /\ code_swap (swapped "NYSE:IBM") = true
  /\ normalize_query (normalize_query "NYSE:IBM") = "NYSE:IBM"
  /\ code_swap "NYSE:brk" && code_swap (swapped "NYSE:brk") = false
  /\ normalize_query (normalize_query "NYSE:brk") = normalize_query "NYSE:brk".
Proof.
  destruct (normalize_twice "NYSE:IBM") as (H1 & _ & _).
  destruct (normalize_twice "NYSE:brk") as (_ & H2 & _).
  do 2 (split; [reflexivity|]). split; [exact (H1 eq_refl eq_refl)|].
  split; [reflexivity | exact (H2 eq_refl)].
Defined.

(** X7.  The normaliser only reorders: its result has the length of the
    query and as many colons, and when it swaps, the left part of the
    result is the right part of the query and conversely. *)
Theorem normalize_only_reorders (q : string) :
  String.length (normalize_query q) = String.length q
  /\ count ":" (normalize_query q) = count ":" q
  /\ (normalize_query q <> q ->
      before ":" (normalize_query q) = after ":" q
      /\ after ":" (normalize_query q) = before ":" q).
Proof.
  rewrite normalize_query_spec.
  destruct (code_swap q) eqn:S; [|repeat split; congruence].
  pose proof (code_swap_one_colon q S) as C.
  destruct (one_colon_parts q C) as (B & A & CS & Sb & Sa & _).
  split; [|split; [congruence | auto]].
  unfold swapped. rewrite append_length. simpl.
  rewrite <- (before_sep_after ":" q) at 3 by lia.
  rewrite append_length. simpl. lia.
Qed.

Lemma normalize_only_reorders_witness :
  normalize_query "NASDAQ:AAPL" <> "NASDAQ:AAPL"
  /\ before ":" (normalize_query "NASDAQ:AAPL") = "AAPL"
  /\ after ":" (normalize_query "NASDAQ:AAPL") = "NASDAQ".
Proof.
  assert (D : normalize_query "NASDAQ:AAPL" <> "NASDAQ:AAPL")
    by (vm_compute; discriminate).
  destruct (normalize_only_reorders "NASDAQ:AAPL") as (_ & _ & H).
  split; [exact D | exact (H D)].
Defined.

(** X21.  What the normaliser does, for every query: it swaps the two
    parts exactly when the query has one colon and its left part holds a
    capital letter, no small letter and no digit, and returns every other
    query unchanged.  So a left part made of capital letters only is
    swapped, and a query without a colon or with several, or with a small
    letter or a digit in its left part, is returned as it is; characters
    without case in the left part (a dot, a hyphen) do not prevent the
    swap. *)
Theorem normalize_query_rule (q : string) :
  normalize_query q = (if code_swap q then swapped q else q)
  /\ (stated_swap q = true -> normalize_query q = swapped q)
  /\ (count ":" q <> 1%nat -> normalize_query q = q)
  /\ (PyStr.str_any PyStr.char_islower (before ":" q) = true ->
      normalize_query q = q)
  /\ (PyStr.str_any PyStr.char_isdigit (before ":" q) = true ->
      normalize_query q = q).
Proof.
  rewrite normalize_query_spec. split; [reflexivity|].
  split; [|unfold code_swap; repeat split].
  - intros S. now rewrite (stated_swap_code_swap q S).
  - intros C. apply Nat.eqb_neq in C. now rewrite C.
  - intros L. rewrite L. cbn [negb]. now rewrite andb_false_r.
  - intros D. rewrite D. cbn [negb]. now rewrite andb_false_r.
Qed.

Lemma normalize_query_rule_witness :
  stated_swap "NASDAQ:AAPL" = true
  /\ normalize_query "NASDAQ:AAPL" = "AAPL:NASDAQ"
  /\ normalize_query "AAPL" = "AAPL"
  /\ normalize_query "a:b:c" = "a:b:c"
  /\ normalize_query "Nasdaq:AAPL" = "Nasdaq:AAPL"
  /\ normalize_query "NYSE2:IBM" = "NYSE2:IBM".
Proof.
  split; [reflexivity|].
  split; [exact (proj1 (proj2 (normalize_query_rule "NASDAQ:AAPL")) eq_refl)|].
  split; [apply (proj1 (proj2 (proj2 (normalize_query_rule "AAPL"))));
          vm_compute; discriminate|].
  split; [apply (proj1 (proj2 (proj2 (normalize_query_rule "a:b:c"))));
          vm_compute; discriminate|].
  split; [exact (proj1 (proj2 (proj2 (proj2
                   (normalize_query_rule "Nasdaq:AAPL")))) eq_refl)|].
  exact (proj2 (proj2 (proj2 (proj2 (normalize_query_rule "NYSE2:IBM"))))
           eq_refl).
Defined.

(** X22.  [get_stock_quote] normalises before it sends: for a query that
    is not blank, with the key present, the one request it sends carries
    the normalised query as [q] (the query itself, not a stripped copy of
    it). *)
Theorem quote_sends_normalized (w : World) (q : string) (gl hl : option string)
    (key : string) :
  SERP_API_KEY w = Some key -> PyStr.nonempty key = true ->
  PyStr.nonempty (PyStr.strip q) = true ->
  exists p, requests (get_stock_quote w q gl hl) = [p]
            /\ assoc "q" p = Some (VStr (normalize_query q)).
Proof. intros K N Q. now apply get_stock_quote_request with (key := key). Qed.

Lemma quote_sends_normalized_witness :
  let w := world_of env_with_key (Ret no_results) in
  SERP_API_KEY w = Some "secret"
  /\ PyStr.nonempty "secret" = true
  /\ PyStr.nonempty (PyStr.strip "NASDAQ:AAPL") = true
  /\ exists p, requests (get_stock_quote w "NASDAQ:AAPL" None None) = [p]
               /\ assoc "q" p = Some (VStr "AAPL:NASDAQ").
Proof.
  intros w. do 3 (split; [reflexivity|]).
  exact (quote_sends_normalized w "NASDAQ:AAPL" None None "secret"
           eq_refl eq_refl eq_refl).
Defined.

(** ** What the requests carry *)

Lemma assoc_set_same (k : string) (v : value) (d : dict) :
  assoc k (set k v d) = Some v.
Proof.
  induction d as [|[k0 v0] d IH]; simpl.
  - now rewrite String.eqb_refl.
  - destruct (String.eqb k0 k) eqn:E; simpl; rewrite E; auto.
Qed.

Lemma assoc_set_if_same (k : string) (o : option string) (d : dict) :
  assoc k (set_if k o d)
  = match sent_str o with Some v => Some v | None => assoc k d end.
Proof.
  unfold set_if, sent_str, truthy_str. destruct o as [s|]; [|reflexivity].
  destruct (PyStr.nonempty s); [apply assoc_set_same | reflexivity].
Qed.

(** Split on the optional arguments a request is built from. *)
Ltac split_params :=
  repeat match goal with
    | |- context [match ?o with Some _ => _ | None => _ end] =>
        is_var o; destruct o
    | |- context [if ?b then _ else _] => destruct b eqn:?
    end.

Lemma char_upper_none (c : ascii) :
  PyStr.char_upper c = None ->
  PyStr.code_is 181 c || PyStr.code_is 255 c = true.
Proof.
  destruct c as [[] [] [] [] [] [] [] []]; vm_compute; congruence.
Qed.

Lemma upper_within (s : string) :
  PyStr.str_any (fun c => PyStr.code_is 181 c || PyStr.code_is 255 c) s = false ->
  exists u, PyStr.upper s = Some u.
Proof.
  induction s as [|c s IH]; simpl; [eauto|].
  intros H. apply orb_false_iff in H as [Hc Hs].
  destruct (IH Hs) as (r & ->).
  destruct (PyStr.char_upper c) as [u|] eqn:E; [eexists; reflexivity|].
  apply char_upper_none in E. congruence.
Qed.

(** X8.  The request of a flight search is a round trip, [type] "1" with
    the [return_date], exactly when a return date is given and not empty;
    otherwise it is one way, [type] "2" without [return_date].  It always
    carries the departure date as given and the language "en", and it
    carries each airport code in capitals: whenever the code has neither
    U+00B5 nor U+00FF (whose capitals lie beyond U+00FF) its upper-case
    form is text of the model and is what is sent. *)
Theorem flight_request_trip (w : World) d a dd rd an tc mp mr p (req : dict) :
  requests (google_flights w d a dd rd an tc mp mr p) = [req] ->
  assoc "type" req = Some (VStr (if truthy_str rd then "1" else "2"))
  /\ assoc "return_date" req = sent_str rd
  /\ (forall u, PyStr.upper d = Some u ->
                assoc "departure_id" req = Some (VStr u))
  /\ (forall u, PyStr.upper a = Some u ->
                assoc "arrival_id" req = Some (VStr u))
  /\ (PyStr.str_any (fun c => PyStr.code_is 181 c || PyStr.code_is 255 c) d
      = false -> exists u, PyStr.upper d = Some u)
  /\ (PyStr.str_any (fun c => PyStr.code_is 181 c || PyStr.code_is 255 c) a
      = false -> exists u, PyStr.upper a = Some u)
  /\ assoc "outbound_date" req = Some (VStr dd)
  /\ assoc "hl" req = Some (VStr "en").
Proof.
  intros R. destruct (flights_request_inv _ _ _ _ _ _ _ _ _ _ _ R)
    as (tier & key & _ & _ & _ & ->).
  unfold flight_request, flight_params, sent_str, truthy_str, str_upper.
  rewrite !assoc_set_other by reflexivity.
  destruct rd as [r|]; [destruct (PyStr.nonempty r)|];
    (destruct mp as [m|]; [destruct (negb (m =? 0)%Z)|]);
    (destruct an as [n|]; [destruct (PyStr.nonempty n)|]);
    repeat split; try apply upper_within;
    intros u U; rewrite U; reflexivity.
Qed.

Lemma flight_request_trip_witness :
  let w := world_of env_with_key (Ret no_results) in
  exists req,
    requests (google_flights w "jfk" "lax" "2025-06-01" (Some "2025-06-08")
                None None None 5 None) = [req]
    /\ assoc "type" req = Some (VStr "1")
    /\ assoc "return_date" req = Some (VStr "2025-06-08")
    /\ PyStr.upper "jfk" = Some "JFK"
    /\ assoc "departure_id" req = Some (VStr "JFK").
Proof.
  intros w. eexists.
  destruct (flight_request_trip w "jfk" "lax" "2025-06-01" (Some "2025-06-08")
              None None None 5%Z None _ eq_refl) as (T & R & D & _).
  split; [reflexivity|]. split; [exact T|]. split; [exact R|].
  split; [reflexivity | exact (D "JFK" eq_refl)].
Defined.

(** X9.  The request of a flight search carries [max_price] exactly when
    a price other than 0 is given and [airline_name] exactly when a name
    that is not empty is given.  [adults] is the number of passengers,
    with 1 standing for an absent or zero number, so it is never 0. *)
Theorem flight_request_filters (w : World) d a dd rd an tc mp mr p (req : dict) :
  requests (google_flights w d a dd rd an tc mp mr p) = [req] ->
  assoc "max_price" req = sent_int mp
  /\ assoc "airline_name" req = sent_str an
  /\ assoc "adults" req
     = Some (VInt (if truthy_int p then match p with Some n => n | None => 1 end
                   else 1)%Z)
  /\ assoc "adults" req <> Some (VInt 0).
Proof.
  intros R. destruct (flights_request_inv _ _ _ _ _ _ _ _ _ _ _ R)
    as (tier & key & _ & _ & _ & ->).
  assert (A : assoc "adults" (flight_request w key d a dd rd an tier mp p)
              = Some (VInt (passenger_count p))).
  { unfold flight_request, flight_params.
    rewrite !assoc_set_other by reflexivity.
    destruct rd as [r|]; [destruct (PyStr.nonempty r)|];
      (destruct mp as [m|]; [destruct (negb (m =? 0)%Z)|]);
      (destruct an as [n|]; [destruct (PyStr.nonempty n)|]);
      reflexivity. }
  split; [|split; [|split]].
  - unfold flight_request, flight_params, sent_int, truthy_int.
    rewrite !assoc_set_other by reflexivity.
    destruct rd as [r|]; [destruct (PyStr.nonempty r)|];
      (destruct mp as [m|]; [destruct (negb (m =? 0)%Z)|]);
      (destruct an as [n|]; [destruct (PyStr.nonempty n)|]);
      reflexivity.
  - unfold flight_request, flight_params, sent_str, truthy_str.
    rewrite !assoc_set_other by reflexivity.
    destruct rd as [r|]; [destruct (PyStr.nonempty r)|];
      (destruct mp as [m|]; [destruct (negb (m =? 0)%Z)|]);
      (destruct an as [n|]; [destruct (PyStr.nonempty n)|]);
      reflexivity.
  - rewrite A. unfold passenger_count, truthy_int.
    destruct p as [n|]; [|reflexivity]. destruct (n =? 0)%Z; reflexivity.
  - rewrite A. unfold passenger_count.
    destruct p as [n|]; [|discriminate].
    destruct (n =? 0)%Z eqn:E; [discriminate|].
    apply Z.eqb_neq in E. congruence.
Qed.

Lemma flight_request_filters_witness :
  let w := world_of env_with_key (Ret no_results) in
  exists req,
    requests (google_flights w "jfk" "lax" "2025-06-01" None (Some "Delta")
                None (Some 400%Z) 5 (Some 0%Z)) = [req]
    /\ assoc "max_price" req = Some (VInt 400)
    /\ assoc "airline_name" req = Some (VStr "Delta")
    /\ assoc "adults" req = Some (VInt 1).
Proof.
  intros w. eexists.
  destruct (flight_request_filters w "jfk" "lax" "2025-06-01" None
              (Some "Delta") None (Some 400%Z) 5%Z (Some 0%Z) _ eq_refl)
    as (M & A & P & _).
  split; [reflexivity|]. split; [exact M|]. split; [exact A | exact P].
Defined.

Lemma flight_params_engine (w : World) d a dd rd an tier mp pc :
  assoc "engine" (flight_params w d a dd rd an tier mp pc)
  = Some (VStr "google_flights").
Proof.
  unfold flight_params.
  destruct rd as [r|]; [destruct (PyStr.nonempty r)|];
    (destruct mp as [m|]; [destruct (negb (m =? 0)%Z)|]);
    (destruct an as [n|]; [destruct (PyStr.nonempty n)|]);
    reflexivity.
Qed.

(** X10.  Every request goes to the engine of its handler and carries the
    key the handler read: [google_flights] for the flight search,
    [google_finance_markets] for the market data, the engine given by the
    caller for the debug tool, and [google_finance] for the others. *)
Theorem request_routing (w : World) (c : tool_call) (req : dict) :
  requests (handle w c) = [req] ->
  assoc "engine" req = Some (VStr (engine_of c))
  /\ assoc "api_key" req = option_map VStr (key_read w c).
Proof.
  destruct c; cbn [handle engine_of key_read].
  1: { intros R. destruct (flights_request_inv _ _ _ _ _ _ _ _ _ _ _ R)
         as (tier & key & _ & K & _ & ->).
       rewrite K. unfold flight_request.
       rewrite assoc_set_same, assoc_set_other by reflexivity.
       split; [apply flight_params_engine | reflexivity]. }
  all: run_finance; intros [= <-]; unfold key_of;
    match goal with
    | H : negb (truthy_str ?k) = false |- _ =>
        apply negb_false_iff in H; apply truthy_str_some in H;
        destruct H as (key & H & _); rewrite H
    end;
    split_params;
    rewrite ?assoc_set_if_other, ?assoc_set_other by reflexivity;
    split; reflexivity.
Qed.

Lemma request_routing_witness :
  let w := world_of env_with_key (Ret no_results) in
  let c := Call_debug_api_response "AAPL" "google_trends" None None in
  exists req,
    requests (handle w c) = [req]
    /\ assoc "engine" req = Some (VStr "google_trends")
    /\ assoc "api_key" req = Some (VStr "secret").
Proof.
  intros w c. eexists.
  destruct (request_routing w c _ eq_refl) as (E & K).
  split; [reflexivity|]. split; [exact E | exact K].
Defined.

(** X11.  A finance or debug request carries the localisation arguments
    [gl] and [hl] exactly when they are given and not empty, each under
    its own name and unchanged. *)
Theorem request_localisation (w : World) (c : tool_call) (req : dict) :
  is_flight_call c = false ->
  requests (handle w c) = [req] ->
  assoc "gl" req = sent_str (gl_of c) /\ assoc "hl" req = sent_str (hl_of c).
Proof.
  intros F. destruct c; try discriminate; cbn [handle gl_of hl_of];
    run_finance; intros [= <-];
    rewrite assoc_set_if_same, assoc_set_if_other, assoc_set_if_same
      by reflexivity;
    (destruct (sent_str gl); destruct (sent_str hl));
    split_params;
    rewrite ?assoc_set_if_other, ?assoc_set_other by reflexivity;
    split; reflexivity.
Qed.

Lemma request_localisation_witness :
  let w := world_of env_with_key (Ret no_results) in
  let c := Call_get_market_data "gainers" (Some "us") (Some "") in
  is_flight_call c = false
  /\ exists req,
       requests (handle w c) = [req]
       /\ assoc "gl" req = Some (VStr "us") /\ assoc "hl" req = None.
Proof.
  intros w c. split; [reflexivity|]. eexists.
  destruct (request_localisation w c _ eq_refl eq_refl) as (G & H).
  split; [reflexivity|]. split; [exact G | exact H].
Defined.

(** X12.  The request of [get_stock_news] carries the query as given and
    leaves the defaults out: [num] is sent unless it is 10, [category]
    unless it is absent, empty or "all", and [start] unless it is absent
    or 0. *)
Theorem news_request_defaults (w : World) (q : string)
    (category : option string) (num : Z) (start : option Z)
    (gl hl : option string) (req : dict) :
  requests (get_stock_news w q category num start gl hl) = [req] ->
  assoc "q" req = Some (VStr q)
  /\ assoc "num" req = (if (num =? 10)%Z then None else Some (VInt num))
  /\ assoc "category" req
     = (if truthy_str category
           && negb (String.eqb (match category with Some x => x | None => "" end)
                      "all")
        then option_map VStr category else None)
  /\ assoc "start" req = sent_int start
  /\ (1 <= num <= 100)%Z.
Proof.
  run_finance; intros [= <-].
  assert (Hnum : (1 <= num <= 100)%Z).
  { match goal with
    | H : ((num <? 1) || (num >? 100))%Z = false |- _ =>
        apply orb_false_iff in H as [H1 H2];
        apply Z.ltb_ge in H1; rewrite Z.gtb_ltb in H2; apply Z.ltb_ge in H2
    end. lia. }
  unfold sent_int, truthy_int, truthy_str.
  rewrite !assoc_set_if_other by reflexivity.
  destruct category as [cat|];
    [destruct (PyStr.nonempty cat); [destruct (String.eqb cat "all")|]|];
    (destruct (num =? 10)%Z);
    (destruct start as [st|]; [destruct (st =? 0)%Z|]);
    cbn [andb negb option_map];
    rewrite ?assoc_set_other by reflexivity;
    repeat split; try apply assoc_set_same; try reflexivity; try exact Hnum;
    try (rewrite ?assoc_set_other by reflexivity; apply assoc_set_same);
    try lia.
Qed.

Lemma news_request_defaults_witness :
  let w := world_of env_with_key (Ret no_results) in
  exists req,
    requests (get_stock_news w "AAPL" (Some "all") 10 (Some 0%Z) None None)
    = [req]
    /\ assoc "q" req = Some (VStr "AAPL")
    /\ assoc "num" req = None
    /\ assoc "category" req = None
    /\ assoc "start" req = None.
Proof.
  intros w. eexists.
  destruct (news_request_defaults w "AAPL" (Some "all") 10%Z (Some 0%Z)
              None None _ eq_refl) as (Q & N & C & S & _).
  split; [reflexivity|]. split; [exact Q|]. split; [exact N|].
  split; [exact C | exact S].
Defined.

(** X13.  The debug tool chooses the name under which it sends its query
    by the engine: [q] for "google_finance", [trend] for
    "google_finance_markets"; for any other engine the request is still
    sent, but carries the query under neither name. *)
Theorem debug_query_name (w : World) (q engine : string)
    (gl hl : option string) (req : dict) :
  requests (debug_api_response w q engine gl hl) = [req] ->
  assoc "q" req
  = (if String.eqb engine "google_finance" then Some (VStr q) else None)
  /\ assoc "trend" req
     = (if String.eqb engine "google_finance_markets" then Some (VStr q)
        else None).
Proof.
  run_finance; intros [= <-].
  rewrite !assoc_set_if_other by reflexivity.
  destruct (String.eqb engine "google_finance") eqn:E1.
  - apply String.eqb_eq in E1. subst engine. split; reflexivity.
  - destruct (String.eqb engine "google_finance_markets"); split; reflexivity.
Qed.

Lemma debug_query_name_witness :
  let w := world_of env_with_key (Ret no_results) in
  exists req,
    requests (debug_api_response w "AAPL" "google_trends" None None) = [req]
    /\ assoc "q" req = None /\ assoc "trend" req = None.
Proof.
  intros w. eexists.
  destruct (debug_query_name w "AAPL" "google_trends" None None _ eq_refl)
    as (Q & T).
  split; [reflexivity|]. split; [exact Q | exact T].
Defined.

(** X14.  [get_financials] does not read [SERP_API_KEY]: it looks its key
    up under the name "SERP_API_K EY".  In a world where [SERP_API_KEY] is
    set and that other name is not, a valid call of [get_financials] sends
    nothing and reports that the key is not configured, while a valid call
    of [get_graph_data] with the same query sends its request. *)
Theorem financials_ignores_the_key (w : World) (q : string)
    (window gl hl : option string) (period key : string) :
  SERP_API_KEY w = Some key -> PyStr.nonempty key = true ->
  truthy_str (getenv w "SERP_API_K EY") = false ->
  in_set window valid_windows = true ->
  PyStr.mem period valid_periods = true ->
  run (get_financials w q window gl hl)
  = (Ret (create_error_response w q "SERP_API_KEY not configured" "financials"),
     [])
  /\ exists req, requests (get_graph_data w q period gl hl) = [req].
Proof.
  intros K N F W P. split.
  - unfold in_set in W. apply negb_true_iff in W.
    unfold run, run_under, get_financials. rewrite W. cbv zeta.
    unfold financials_key_name. rewrite F. reflexivity.
  - apply (request_sent w (Call_get_graph_data q period gl hl)).
    + exact P.
    + cbn [key_read]. rewrite K. exact N.
Qed.

Lemma financials_ignores_the_key_witness :
  let w := world_of env_with_key (Ret no_results) in
  SERP_API_KEY w = Some "secret"
  /\ truthy_str (getenv w "SERP_API_K EY") = false
  /\ run (get_financials w "AAPL" (Some "year") None None)
     = (Ret (create_error_response w "AAPL" "SERP_API_KEY not configured"
               "financials"), [])
  /\ exists req, requests (get_graph_data w "AAPL" "1y" None None) = [req].
Proof.
  intros w.
  destruct (financials_ignores_the_key w "AAPL" (Some "year") None None "1y"
              "secret" eq_refl eq_refl eq_refl eq_refl eq_refl) as (H1 & H2).
  do 2 (split; [reflexivity|]). split; [exact H1 | exact H2].
Defined.

(** ** Optional arguments *)

Lemma drop_str_cases (o : option string) :
  (o = Some "" /\ drop_str o = None) \/ drop_str o = o.
Proof.
  destruct o as [[|c s]|]; [left | right | right]; auto.
Qed.

Lemma drop_int_cases (o : option Z) :
  (o = Some 0%Z /\ drop_int o = None) \/ drop_int o = o.
Proof.
  destruct o as [z|]; [|right; reflexivity].
  unfold drop_int, truthy_int. destruct (Z.eqb_spec z 0); simpl.
  - left. subst. auto.
  - right. reflexivity.
Qed.

Ltac drop_cases :=
  repeat match goal with
    | |- context [drop_str ?o] =>
        let H := fresh in let E := fresh in
        destruct (drop_str_cases o) as [[H E]|E]; rewrite E; [subst o|]
    | |- context [drop_int ?o] =>
        let H := fresh in let E := fresh in
        destruct (drop_int_cases o) as [[H E]|E]; rewrite E; [subst o|]
    end.

(** X16.  For every handler, an optional argument that is given but empty
    (or, for a number, 0) has the effect of an absent one: the result and
    the request are the same.  For the flight search this means that an
    empty travel class is economy and zero passengers are one. *)
Theorem falsy_is_absent (w : World) (c : tool_call) :
  run (handle w (drop_falsy c)) = run (handle w c).
Proof.
  unfold run, run_under. destruct c; cbn [drop_falsy handle]; drop_cases; reflexivity.
Qed.

(** ** The enumerations and the checks of the handlers *)

Ltac member_of :=
  match goal with
  | H : String.eqb _ _ = true |- _ => apply String.eqb_eq in H; subst
  end;
  first
    [ exists Enums.MarketTrend.INDEXES; reflexivity
    | exists Enums.MarketTrend.MOST_ACTIVE; reflexivity
    | exists Enums.MarketTrend.GAINERS; reflexivity
    | exists Enums.MarketTrend.LOSERS; reflexivity
    | exists Enums.MarketTrend.CLIMATE_LEADERS; reflexivity
    | exists Enums.MarketTrend.CRYPTOCURRENCIES; reflexivity
    | exists Enums.MarketTrend.CURRENCIES; reflexivity
    | exists Enums.GraphPeriod.ONE_DAY; reflexivity
    | exists Enums.GraphPeriod.FIVE_DAYS; reflexivity
    | exists Enums.GraphPeriod.ONE_MONTH; reflexivity
    | exists Enums.GraphPeriod.SIX_MONTHS; reflexivity
    | exists Enums.GraphPeriod.YEAR_TO_DATE; reflexivity
    | exists Enums.GraphPeriod.ONE_YEAR; reflexivity
    | exists Enums.GraphPeriod.FIVE_YEARS; reflexivity
    | exists Enums.GraphPeriod.MAX; reflexivity
    | exists Enums.NewsCategory.ALL; reflexivity
    | exists Enums.NewsCategory.LATEST; reflexivity
    | exists Enums.NewsCategory.OPINION; reflexivity
    | exists Enums.NewsCategory.PRESS_RELEASES; reflexivity
    | exists Enums.Window.WEEK; reflexivity
    | exists Enums.Window.MONTH; reflexivity
    | exists Enums.Window.THREE_MONTHS; reflexivity
    | exists Enums.Window.SIX_MONTHS; reflexivity
    | exists Enums.Window.YEAR; reflexivity ].

Ltac split_mem H :=
  unfold PyStr.mem, valid_trends, valid_periods, valid_windows,
    valid_categories in H;
  cbn [existsb] in H;
  repeat (apply orb_true_iff in H as [H|H]; [member_of|]);
  discriminate H.

(** X18.  The values the handlers accept are exactly the values of the
    enumerations of [google_finance_utils.py], although the handlers list
    them again: a trend is accepted by [get_market_data] iff it is the
    value of a [MarketTrend], a period by [get_graph_data] and
    [compare_stocks] iff it is the value of a [GraphPeriod], and a
    non-empty window or category by [get_financials] or [get_stock_news]
    iff it is the value of a [Window] or of a [NewsCategory]. *)
Theorem accepted_values_are_the_enums (s : string) :
  (PyStr.mem s valid_trends = true
   <-> exists t, s = Enums.MarketTrend.value t)
  /\ (PyStr.mem s valid_periods = true
      <-> exists t, s = Enums.GraphPeriod.value t)
  /\ (PyStr.mem s valid_windows = true
      <-> exists t, s = Enums.Window.value t)
  /\ (PyStr.mem s valid_categories = true
      <-> exists t, s = Enums.NewsCategory.value t).
Proof.
  repeat split.
  all: intros H; try (split_mem H; fail).
  all: destruct H as [t ->]; destruct t; reflexivity.
Qed.

Lemma accepted_values_are_the_enums_witness :
  PyStr.mem "climate-leaders" valid_trends = true
  /\ exists t, "climate-leaders" = Enums.MarketTrend.value t.
Proof.
  split; [reflexivity|].
  exact (proj1 (proj1 (accepted_values_are_the_enums "climate-leaders"))
           eq_refl).
Defined.

(** ** Case and hyphens in a travel class *)

Lemma str_map_map (f g : ascii -> ascii) (s : string) :
  PyStr.str_map f (PyStr.str_map g s) = PyStr.str_map (fun c => f (g c)) s.
Proof. induction s as [|c s IH]; simpl; congruence. Qed.

Lemma str_map_ext (f g : ascii -> ascii) (s : string) :
  (forall c, f c = g c) -> PyStr.str_map f s = PyStr.str_map g s.
Proof. intros H. induction s as [|c s IH]; simpl; congruence. Qed.

Lemma nonempty_map (f : ascii -> ascii) (s : string) :
  PyStr.nonempty (PyStr.str_map f s) = PyStr.nonempty s.
Proof. destruct s; reflexivity. Qed.

Lemma char_lower_twice (c : ascii) :
  PyStr.char_lower (PyStr.char_lower c) = PyStr.char_lower c.
Proof. destruct c as [[] [] [] [] [] [] [] []]; reflexivity. Qed.

Lemma char_hyphen_lower (c : ascii) :
  (if Ascii.eqb (PyStr.char_lower (if Ascii.eqb c "-" then "_" else c)) "-"
   then "_"
   else PyStr.char_lower (if Ascii.eqb c "-" then "_" else c))%char
  = (if Ascii.eqb (PyStr.char_lower c) "-" then "_" else PyStr.char_lower c)%char.
Proof. destruct c as [[] [] [] [] [] [] [] []]; reflexivity. Qed.

(** X19.  The resolution of a travel class does not see case or the
    difference between hyphen and underscore, for any input: an input, its
    lower-case form and its form with hyphens replaced by underscores give
    the same key, hence the same tier or the same rejection. *)
Theorem travel_class_key_insensitive (s : string) :
  travel_class_key (Some (PyStr.lower s)) = travel_class_key (Some s)
  /\ travel_class_key (Some (PyStr.replace "-" "_" s))
     = travel_class_key (Some s)
  /\ assoc (travel_class_key (Some (PyStr.lower s))) TRAVEL_CLASS_MAP
     = assoc (travel_class_key (Some s)) TRAVEL_CLASS_MAP.
Proof.
  assert (L : travel_class_key (Some (PyStr.lower s))
              = travel_class_key (Some s)).
  { unfold travel_class_key, PyStr.lower. rewrite nonempty_map.
    destruct (PyStr.nonempty s); [|reflexivity].
    rewrite (str_map_map PyStr.char_lower PyStr.char_lower).
    now rewrite (str_map_ext _ PyStr.char_lower s char_lower_twice). }
  split; [exact L|]. split; [|now rewrite L].
  unfold travel_class_key, PyStr.replace, PyStr.lower. rewrite nonempty_map.
  destruct (PyStr.nonempty s); [|reflexivity].
  rewrite !str_map_map. f_equal. apply str_map_ext. apply char_hyphen_lower.
Qed.
